(** * Model composition in dmipy, as exercised by the tutorial notebooks

    The notebooks under [examples/] build compartment models (Stick, Ball,
    Zeppelin, Cylinder), combine them with [MultiCompartmentModel] or with
    the orientation / diameter distributions of [distribute_models], and use
    the combined model's [parameter_cardinality], [parameter_names],
    [parameters_to_parameter_vector], [parameter_vector_to_parameters],
    [simulate_signal] and [fit].  This file embeds that surface: model
    trees, the prefixed parameter names, the flat parameter vector and its
    inverse, and the volume-fraction weighted signal.  Real numbers of the
    library (numpy float64) are idealised as [Q]. *)

From Stdlib Require Import QArith Ascii.
From stdpp Require Import base list gmap strings pretty.

Local Open Scope string_scope.
Local Set Warnings "-register-all".

(* ================================================================== *)
(** ** Models and their parameter names *)

(** A model is either a compartment model with its own ordered
    [parameter_cardinality], or a distributed model ([SD1WatsonDistributed],
    [SD2BinghamDistributed], [DD1GammaDistributed]) over a list of models:
    its class name, the class name of its distribution, the distribution's
    own parameters, the component parameter the distribution replaces
    ([target_parameter]) and the components. *)
Inductive model :=
| Compartment (cls : string) (card : list (string * nat))
| Distributed (cls : string) (dist : string) (dist_card : list (string * nat))
              (target : string) (models : list model).

Definition class_name (m : model) : string :=
  match m with
  | Compartment c _ => c
  | Distributed c _ _ _ _ => c
  end.

(** [model_names]: for each model of the input list the prefix
    ['<ClassName>_<k>_'], where [k] counts the models of the same class met
    so far (a dict of counters, starting at 1). *)
Fixpoint model_names_go (counts : gmap string nat) (cs : list string)
    : list string :=
  match cs with
  | [] => []
  | c :: cs' =>
      let k := S (default 0 (counts !! c)) in
      (c +:+ "_" +:+ pretty k +:+ "_") :: model_names_go (<[c:=k]> counts) cs'
  end.

Definition model_names (ms : list model) : list string :=
  model_names_go ∅ (map class_name ms).

Definition prefix_card (pre : string) (card : list (string * nat))
    : list (string * nat) :=
  map (fun pc => (pre +:+ pc.1, pc.2)) card.

Definition partial_volume_name (i : nat) : string :=
  "partial_volume_" +:+ pretty i.

(** ['partial_volume_{i}' for i in range(n)], each of cardinality 1. *)
Definition partial_volume_card (n : nat) : list (string * nat) :=
  map (fun i => (partial_volume_name i, 1%nat)) (seq 0 n).

(** The components' parameters, each with its model prefix, except the
    [target] parameter of each component (which the distribution
    replaces). *)
Definition distributed_component_card (target : string)
    (ms : list model) (cards : list (list (string * nat)))
    : list (string * nat) :=
  concat (zip_with
    (fun pre card => prefix_card pre (filter (fun pc => pc.1 <> target) card))
    (model_names ms) cards).

(** [parameter_cardinality] of a model (an ordered dict, as a list).  A
    distributed model over [n] components keeps [n - 1] volume fractions:
    the last one is one minus the others. *)
Fixpoint parameter_cardinality (m : model) : list (string * nat) :=
  match m with
  | Compartment _ card => card
  | Distributed _ dist dcard target ms =>
      distributed_component_card target ms (map parameter_cardinality ms)
      ++ prefix_card (dist +:+ "_1_") dcard
      ++ partial_volume_card (length ms - 1)
  end.

Definition parameter_names (m : model) : list string :=
  map fst (parameter_cardinality m).

(** *** The compartment models used by the notebooks *)

Definition C1Stick : model :=
  Compartment "C1Stick" [("mu", 2%nat); ("lambda_par", 1%nat)].
Definition G1Ball : model :=
  Compartment "G1Ball" [("lambda_iso", 1%nat)].
Definition G2Zeppelin : model :=
  Compartment "G2Zeppelin"
    [("mu", 2%nat); ("lambda_par", 1%nat); ("lambda_perp", 1%nat)].
Definition G3RestrictedZeppelin : model :=
  Compartment "G3RestrictedZeppelin"
    [("mu", 2%nat); ("lambda_par", 1%nat); ("lambda_inf", 1%nat); ("A", 1%nat)].
Definition C4CylinderGaussianPhaseApproximation : model :=
  Compartment "C4CylinderGaussianPhaseApproximation"
    [("mu", 2%nat); ("lambda_par", 1%nat); ("diameter", 1%nat)].

(** *** The distributed models of [distribute_models] *)

Definition SD1WatsonDistributed (ms : list model) : model :=
  Distributed "SD1WatsonDistributed" "SD1Watson"
    [("mu", 2%nat); ("odi", 1%nat)] "mu" ms.
Definition SD2BinghamDistributed (ms : list model) : model :=
  Distributed "SD2BinghamDistributed" "SD2Bingham"
    [("mu", 2%nat); ("psi", 1%nat); ("odi", 1%nat); ("beta_fraction", 1%nat)]
    "mu" ms.
(** [target_parameter] defaults to ['diameter']. *)
Definition DD1GammaDistributed (ms : list model) (target : string) : model :=
  Distributed "DD1GammaDistributed" "DD1Gamma"
    [("alpha", 1%nat); ("beta", 1%nat)] target ms.

(** *** [MultiCompartmentModel] *)

Record MultiCompartmentModel := { mc_models : list model }.

(** With a single model there is no volume fraction; otherwise one
    ['partial_volume_{i}'] per model. *)
Definition mc_partial_volume_card (n : nat) : list (string * nat) :=
  if bool_decide (1 < n)%nat then partial_volume_card n else [].

(** The parameters of each model of the list under its model prefix. *)
Definition component_card (ms : list model) : list (string * nat) :=
  concat (zip_with (fun pre m => prefix_card pre (parameter_cardinality m))
                   (model_names ms) ms).

Definition mc_parameter_cardinality (mc : MultiCompartmentModel)
    : list (string * nat) :=
  component_card (mc_models mc)
  ++ mc_partial_volume_card (length (mc_models mc)).

Definition mc_parameter_names (mc : MultiCompartmentModel) : list string :=
  map fst (mc_parameter_cardinality mc).

(** *** The models built in the notebooks *)

Definition ball_and_stick : MultiCompartmentModel :=
  {| mc_models := [G1Ball; C1Stick] |}.
Definition watson_bundle : model :=
  SD1WatsonDistributed [C1Stick; G2Zeppelin].
Definition bingham_bundle : model :=
  SD2BinghamDistributed [C1Stick; G2Zeppelin].
Definition gamma_bundle : model :=
  DD1GammaDistributed [C4CylinderGaussianPhaseApproximation] "diameter".
Definition bingham_bundle2 : model :=
  SD2BinghamDistributed [C4CylinderGaussianPhaseApproximation; G3RestrictedZeppelin].
Definition gamma_bingham_bundle : model :=
  DD1GammaDistributed [bingham_bundle2]
    "C4CylinderGaussianPhaseApproximation_1_diameter".
Definition white_matter_mc_model : MultiCompartmentModel :=
  {| mc_models := [gamma_bingham_bundle] |}.

(** *** The methods shared by every model *)

(** Both compartment / distributed models and [MultiCompartmentModel]
    expose an ordered [parameter_cardinality]; the conversion methods below
    only depend on it. *)
Class ModelProperties (M : Type) :=
  parameter_cardinality_of : M -> list (string * nat).
#[global] Instance model_properties : ModelProperties model :=
  parameter_cardinality.
#[global] Instance mc_model_properties : ModelProperties MultiCompartmentModel :=
  mc_parameter_cardinality.

(* ================================================================== *)
(** ** Parameter values, vectors and maps *)

(** A keyword-argument value: a Python scalar or a tuple / array. *)
Inductive pvalue :=
| Scalar (x : Q)
| Array (xs : list Q).

(** [np.atleast_1d] *)
Definition atleast_1d (v : pvalue) : list Q :=
  match v with
  | Scalar x => [x]
  | Array xs => xs
  end.

(** The loop of [parameters_to_parameter_vector]: the values in the order
    of [parameter_cardinality], each made at least one-dimensional, then
    concatenated.  A missing name raises [KeyError] ([None]). *)
Fixpoint card_to_parameter_vector (card : list (string * nat))
    (parameters : gmap string pvalue) : option (list Q) :=
  match card with
  | [] => Some []
  | (p, _) :: card' =>
      v ← parameters !! p;
      rest ← card_to_parameter_vector card' parameters;
      Some (atleast_1d v ++ rest)%list
  end.

Definition parameters_to_parameter_vector {M} `{ModelProperties M} (m : M)
    (parameters : gmap string pvalue) : option (list Q) :=
  card_to_parameter_vector (parameter_cardinality_of m) parameters.

(** The loop of [parameter_vector_to_parameters]: [parameters[name] =
    parameter_vector[..., pos:pos + card]], [pos] advancing by [card]. *)
Fixpoint card_vector_to_parameters (card : list (string * nat)) (vec : list Q)
    (acc : gmap string (list Q)) : gmap string (list Q) :=
  match card with
  | [] => acc
  | (p, c) :: card' =>
      card_vector_to_parameters card' (drop c vec) (<[p := take c vec]> acc)
  end.

Definition parameter_vector_to_parameters {M} `{ModelProperties M} (m : M)
    (vec : list Q) : gmap string (list Q) :=
  card_vector_to_parameters (parameter_cardinality_of m) vec ∅.

(** The same slicing applied to a stack of parameter vectors (one row per
    voxel): each name gets the column block [[..., pos:pos + card]]. *)
Fixpoint card_vectors_to_parameters (card : list (string * nat))
    (vecs : list (list Q)) (acc : gmap string (list (list Q)))
    : gmap string (list (list Q)) :=
  match card with
  | [] => acc
  | (p, c) :: card' =>
      card_vectors_to_parameters card' (map (drop c) vecs)
        (<[p := map (take c) vecs]> acc)
  end.

(** A valid named-parameter assignment: every parameter of the model is
    given, with as many entries as its cardinality. *)
Definition valid_assignment {M} `{ModelProperties M} (m : M)
    (parameters : gmap string pvalue) : bool :=
  forallb (fun pc => match parameters !! pc.1 with
                     | Some v => bool_decide (length (atleast_1d v) = pc.2)
                     | None => false
                     end) (parameter_cardinality_of m).

(** Whether an assignment gives every name of a cardinality list a value
    of its cardinality. *)
Definition card_valid (card : list (string * nat))
    (parameters : gmap string pvalue) : bool :=
  forallb (fun pc => match parameters !! pc.1 with
                     | Some v => bool_decide (length (atleast_1d v) = pc.2)
                     | None => false
                     end) card.

Definition total_cardinality {M} `{ModelProperties M} (m : M) : nat :=
  sum_list (map snd (parameter_cardinality_of m)).

(** *** [fit] *)

(** A fitted model keeps the stacked fitted parameter vectors, one per
    voxel; [fitted_parameters] slices them per parameter name. *)
Record FittedModel := {
  fitted_card : list (string * nat);
  fitted_parameters_vector : list (list Q)
}.

Definition fitted_parameters (f : FittedModel) : gmap string (list (list Q)) :=
  card_vectors_to_parameters (fitted_card f) (fitted_parameters_vector f) ∅.

(** Modelled from the spec: the per-voxel optimisation of [fit] (the
    brute-to-fine optimizer run by parallel workers) is library code not in
    the notebooks; it is a parameter [optimize] mapping the data of one
    voxel to a fitted parameter vector. *)
Definition fit {M} `{ModelProperties M} (m : M)
    (optimize : list Q -> list Q) (data : list (list Q)) : FittedModel :=
  {| fitted_card := parameter_cardinality_of m;
     fitted_parameters_vector := map optimize data |}.

(* ================================================================== *)
(** ** [simulate_signal] *)

Section Simulation.

Variable acquisition_scheme : Type.

(** Modelled from the spec: the signal of one component model (Stick,
    Ball, a dispersed bundle, ...) for its own, unprefixed parameters.  The
    biophysical equations are library code that the notebooks only call. *)
Variable model_signal : model -> acquisition_scheme -> gmap string (list Q) -> Q.

(** The parameters of the component with prefix [pre], under their own
    names ([kwargs[model_name + parameter]] for each of its parameters). *)
Definition component_parameters (pre : string) (m : model)
    (parameters : gmap string (list Q)) : gmap string (list Q) :=
  list_to_map (omap (fun pc => (fun v => (pc.1, v)) <$> parameters !! (pre +:+ pc.1))
                    (parameter_cardinality m)).

(** The volume fractions: [partial_volume_i] for each model, or [1.] when
    the model list has a single entry. *)
Definition mc_partial_volumes (mc : MultiCompartmentModel)
    (parameters : gmap string (list Q)) : list Q :=
  let n := length (mc_models mc) in
  if bool_decide (1 < n)%nat
  then map (fun i => default 0%Q (parameters !! partial_volume_name i ≫= head))
           (seq 0 n)
  else [1%Q].

(** Modelled from the spec: "a weighted combination of compartment
    models", [E = vf_0 * E_Ball + vf_1 * E_Stick] in the notebook:
    [values = 0; values = values + partial_volume * model(...)] over the
    models in order. *)
Definition mc_signal (mc : MultiCompartmentModel) (acq : acquisition_scheme)
    (parameters : gmap string (list Q)) : Q :=
  fold_left (fun acc fe => (acc + fe.1 * fe.2)%Q)
    (zip (mc_partial_volumes mc parameters)
         (zip_with (fun pre m => model_signal m acq (component_parameters pre m parameters))
                   (model_names (mc_models mc)) (mc_models mc)))
    0%Q.

(** [simulate_signal(acquisition_scheme, parameter_vector)] *)
Definition simulate_signal (mc : MultiCompartmentModel)
    (acq : acquisition_scheme) (vec : list Q) : Q :=
  mc_signal mc acq (parameter_vector_to_parameters mc vec).

End Simulation.

Arguments mc_signal {acquisition_scheme} model_signal mc acq parameters.
Arguments simulate_signal {acquisition_scheme} model_signal mc acq vec.

(** The claim's reading of a weighted combination: [sum_i f_i * e_i]. *)
Definition weighted_combination (fs es : list Q) : Q :=
  foldr (fun fe acc => (fe.1 * fe.2 + acc)%Q) 0%Q (zip fs es).

(** The volume fraction given for [partial_volume_i] in a keyword
    assignment. *)
Definition assigned_fraction (parameters : gmap string pvalue) (i : nat) : Q :=
  match parameters !! partial_volume_name i with
  | Some v => default 0%Q (head (atleast_1d v))
  | None => 0%Q
  end.

(** The volume fractions given in an assignment: [partial_volume_0 ..
    partial_volume_(n-1)], or the single fraction 1 of a one-model list. *)
Definition assigned_fractions (mc : MultiCompartmentModel)
    (parameters : gmap string pvalue) : list Q :=
  let n := length (mc_models mc) in
  if bool_decide (1 < n)%nat then map (assigned_fraction parameters) (seq 0 n)
  else [1%Q].

(** The own parameters of the component with prefix [pre], as given in a
    keyword assignment. *)
Definition assigned_component_parameters (pre : string) (m : model)
    (parameters : gmap string pvalue) : gmap string (list Q) :=
  list_to_map (omap (fun pc => (fun v => (pc.1, atleast_1d v)) <$>
                                 parameters !! (pre +:+ pc.1))
                    (parameter_cardinality m)).

(** *** The ball-and-stick parameters of the notebook *)

(** [np.pi / 2.] to the precision printed by the notebook. *)
Definition half_pi : Q := 157079633 # 100000000.

(** [parameters_to_parameter_vector(C1Stick_1_lambda_par=1.7e-9,
    G1Ball_1_lambda_iso=3e-9, C1Stick_1_mu=(pi/2, pi/2),
    partial_volume_0=0.5, partial_volume_1=0.5)] *)
Definition ball_and_stick_parameters : gmap string pvalue :=
  list_to_map
    [("C1Stick_1_lambda_par", Scalar (17 # 10000000000));
     ("G1Ball_1_lambda_iso", Scalar (3 # 1000000000));
     ("C1Stick_1_mu", Array [half_pi; half_pi]);
     ("partial_volume_0", Scalar (1 # 2));
     ("partial_volume_1", Scalar (1 # 2))].

Definition ball_and_stick_vector : list Q :=
  default [] (parameters_to_parameter_vector ball_and_stick
                ball_and_stick_parameters).

(** *** The naming scheme, read from the claims *)

(** The number of models of class [c] among the first [i + 1] class names. *)
Definition occurrence (cs : list string) (i : nat) (c : string) : nat :=
  length (filter (fun c' => c' = c) (take (S i) cs)).

(** The prefix of the model at position [i]: its class name and its
    occurrence index among the models of that class. *)
Definition occurrence_prefix (ms : list model) (i : nat) (m : model) : string :=
  class_name m +:+ "_" +:+
    pretty (occurrence (map class_name ms) i (class_name m)) +:+ "_".

(** The names a model would carry if a distributed model kept every
    parameter of its components (the names before the target parameters
    are dropped). *)
Definition distributed_full_names (m : model) : list string :=
  match m with
  | Compartment _ card => map fst card
  | Distributed _ dist dcard _ ms =>
      map fst (component_card ms ++ prefix_card (dist +:+ "_1_") dcard
               ++ partial_volume_card (length ms - 1))
  end.

(** *** Volume fractions *)



(** ** The supplied notebook cells *)

(** The Python syntax the notebook cells are written in. *)
Inductive expr :=
  | Var (x : string)
  | Num (literal : string)
  | Str (s : string)
  | Tuple (es : list expr)
  | ListLit (es : list expr)
  | BinOp (op : string) (a b : expr)
  | Attr (o : expr) (name : string)
  | Call (f : expr) (args : list expr) (kwargs : list (string * expr)).

Inductive stmt :=
  | ImportFrom (module : string) (names : list string)
  | ImportAs (module : string) (alias : string)
  | Assign (target : string) (e : expr)
  | ExprStmt (e : expr)
  | PrintStmt (es : list expr)
  | FunctionDef (name : string) (params : list string) (body : list stmt)
  | ClassDef (name : string) (bases : list expr) (body : list stmt).

(** A notebook is a list of code cells. *)
Definition notebook := list (list stmt).

Definition dot (x name : string) : expr := Attr (Var x) name.

Definition half_pi_expr : expr := BinOp "/" (dot "np" "pi") (Num "2.").

(** [tutorial_combining_biophysical_models_into_microstructure_model.ipynb],
    the [dmipy] notebook. *)
Definition combining_notebook : notebook :=
  [[ImportFrom "dmipy.signal_models" ["cylinder_models"; "gaussian_models"];
    ImportFrom "dmipy.core.modeling_framework" ["MultiCompartmentModel"];
    ImportFrom "dmipy.data" ["saved_acquisition_schemes"];
    ImportAs "numpy" "np";
    Assign "acq_scheme"
      (Call (dot "saved_acquisition_schemes" "wu_minn_hcp_acquisition_scheme") [] [])];
   [Assign "stick" (Call (dot "cylinder_models" "C1Stick") [] []);
    Assign "ball" (Call (dot "gaussian_models" "G1Ball") [] [])];
   [Assign "ball_and_stick"
      (Call (Var "MultiCompartmentModel") []
            [("models", ListLit [Var "ball"; Var "stick"])])];
   [ExprStmt (dot "ball_and_stick" "parameter_cardinality")];
   [Assign "mu" (Tuple [half_pi_expr; half_pi_expr]);
    Assign "lambda_par" (Num "1.7e-9");
    Assign "lambda_iso" (Num "3e-9");
    Assign "partial_volume" (Num "0.5");
    Assign "parameter_vector"
      (Call (dot "ball_and_stick" "parameters_to_parameter_vector") []
            [("C1Stick_1_lambda_par", Var "lambda_par");
             ("G1Ball_1_lambda_iso", Var "lambda_iso");
             ("C1Stick_1_mu", Var "mu");
             ("partial_volume_0", Var "partial_volume");
             ("partial_volume_1", Var "partial_volume")]);
    Assign "E" (Call (dot "ball_and_stick" "simulate_signal")
                     [Var "acq_scheme"; Var "parameter_vector"] [])];
   [Assign "fitted_ball_and_stick"
      (Call (dot "ball_and_stick" "fit") [Var "acq_scheme"; Var "E"] [])];
   [ExprStmt (dot "fitted_ball_and_stick" "fitted_parameters")];
   [ExprStmt (Call (dot "ball_and_stick" "parameter_vector_to_parameters")
                   [Var "parameter_vector"] [])]].

(** The HCP acquisition scheme built from the gradient tables of
    [microstruktur]. *)
Definition load_table (file : string) : expr :=
  Call (dot "np" "loadtxt") [Call (Var "join") [Var "acquisition_path"; Str file] []] [].

Definition microstruktur_acquisition : list stmt :=
  [Assign "acq_scheme"
     (Call (Var "acquisition_scheme_from_bvalues")
           [Var "bvalues_SI"; Var "gradient_directions"; Var "delta"; Var "Delta"] [])].

(** The second notebook stored in the same file, on [microstruktur]. *)
Definition combining_microstruktur_notebook : notebook :=
  [([ImportFrom "microstruktur.signal_models" ["three_dimensional_models"];
    ImportFrom "microstruktur.acquisition_scheme.acquisition_scheme"
      ["acquisition_scheme_from_bvalues"];
    ImportFrom "os.path" ["join"];
    ImportAs "numpy" "np";
    Assign "acquisition_path" (dot "three_dimensional_models" "GRADIENT_TABLES_PATH");
    Assign "bvalues_SI" (BinOp "*" (load_table "bvals_hcp_wu_minn.txt") (Num "1e6"));
    Assign "gradient_directions" (load_table "bvecs_hcp_wu_minn.txt");
    Assign "delta" (Num "0.0106");
    Assign "Delta" (Num "0.0431")] ++ microstruktur_acquisition)%list;
   [Assign "stick" (Call (dot "three_dimensional_models" "I1Stick") [] []);
    Assign "ball" (Call (dot "three_dimensional_models" "E3Ball") [] [])];
   [Assign "ball_and_stick"
      (Call (dot "three_dimensional_models" "PartialVolumeCombinedMicrostrukturModel") []
            [("models", ListLit [Var "ball"; Var "stick"])])];
   [ExprStmt (dot "ball_and_stick" "parameter_cardinality")];
   [Assign "mu" (Tuple [half_pi_expr; half_pi_expr]);
    Assign "lambda_par" (Num "1e-9");
    Assign "lambda_iso" (Num ".6e-9");
    Assign "partial_volume" (Num "0.5");
    Assign "parameter_vector"
      (Call (dot "ball_and_stick" "parameters_to_parameter_vector") []
            [("I1Stick_1_lambda_par", Var "lambda_par");
             ("E3Ball_1_lambda_iso", Var "lambda_iso");
             ("I1Stick_1_mu", Var "mu");
             ("partial_volume_0", Var "partial_volume")]);
    Assign "E" (Call (dot "ball_and_stick" "simulate_signal")
                     [Var "acq_scheme"; Var "parameter_vector"] [])];
   [Assign "initial_mu" (Tuple [BinOp "/" (dot "np" "pi") (Num "4.");
                                BinOp "/" (dot "np" "pi") (Num "4.")]);
    Assign "initial_lambda_par" (Num "1.4e-9");
    Assign "intial_lambda_iso" (Num ".2e-9");
    Assign "intial_partial_volume" (Num ".3");
    Assign "x0"
      (Call (dot "ball_and_stick" "parameters_to_parameter_vector") []
            [("I1Stick_1_lambda_par", Var "initial_lambda_par");
             ("E3Ball_1_lambda_iso", Var "intial_lambda_iso");
             ("I1Stick_1_mu", Var "initial_mu");
             ("partial_volume_0", Var "intial_partial_volume")]);
    Assign "res" (Call (dot "ball_and_stick" "fit") [Var "E"; Var "acq_scheme"; Var "x0"] [])];
   [ExprStmt (Call (dot "ball_and_stick" "parameter_vector_to_parameters") [Var "res"] [])];
   [ExprStmt (Call (dot "ball_and_stick" "parameter_vector_to_parameters")
                   [Var "parameter_vector"] [])]].

(** [tutorial_distributed_model_representations.ipynb] *)
Definition distributed_notebook : notebook :=
  [[ImportFrom "dmipy.signal_models" ["gaussian_models"; "cylinder_models"];
    ImportFrom "dmipy.distributions" ["distribute_models"];
    Assign "stick" (Call (dot "cylinder_models" "C1Stick") [] []);
    Assign "zeppelin" (Call (dot "gaussian_models" "G2Zeppelin") [] []);
    Assign "watson_bundle"
      (Call (dot "distribute_models" "SD1WatsonDistributed") []
            [("models", ListLit [Var "stick"; Var "zeppelin"])])];
   [ExprStmt (dot "watson_bundle" "parameter_names")];
   [Assign "stick" (Call (dot "cylinder_models" "C1Stick") [] []);
    Assign "zeppelin" (Call (dot "gaussian_models" "G2Zeppelin") [] []);
    Assign "bingham_bundle"
      (Call (dot "distribute_models" "SD2BinghamDistributed") []
            [("models", ListLit [Var "stick"; Var "zeppelin"])]);
    ExprStmt (dot "bingham_bundle" "parameter_names")];
   [Assign "cylinder"
      (Call (dot "cylinder_models" "C4CylinderGaussianPhaseApproximation") [] []);
    Assign "gamma_bundle"
      (Call (dot "distribute_models" "DD1GammaDistributed") []
            [("models", ListLit [Var "cylinder"])]);
    ExprStmt (dot "gamma_bundle" "parameter_names")];
   [Assign "cylinder"
      (Call (dot "cylinder_models" "C4CylinderGaussianPhaseApproximation") [] []);
    Assign "restricted_zeppelin"
      (Call (dot "gaussian_models" "G3RestrictedZeppelin") [] []);
    Assign "bingham_bundle"
      (Call (dot "distribute_models" "SD2BinghamDistributed") []
            [("models", ListLit [Var "cylinder"; Var "restricted_zeppelin"])]);
    ExprStmt (dot "bingham_bundle" "parameter_names")];
   [Assign "gamma_bingham_bundle"
      (Call (dot "distribute_models" "DD1GammaDistributed") []
            [("models", ListLit [Var "bingham_bundle"]);
             ("target_parameter",
              Str "C4CylinderGaussianPhaseApproximation_1_diameter")])];
   [ImportFrom "dmipy.core.modeling_framework" ["MultiCompartmentModel"];
    Assign "white_matter_mc_model"
      (Call (Var "MultiCompartmentModel") []
            [("models", ListLit [Var "gamma_bingham_bundle"])]);
    ExprStmt (dot "white_matter_mc_model" "parameter_names")]].

(** [tutorial_simulating_and_fitting_using_a_simple_model.ipynb] *)
Definition simple_notebook : notebook :=
  [([ImportFrom "microstruktur.signal_models" ["three_dimensional_models"; "dispersed_models"];
    ImportFrom "microstruktur.acquisition_scheme.acquisition_scheme"
      ["acquisition_scheme_from_bvalues"];
    ImportFrom "os.path" ["join"];
    ImportAs "numpy" "np";
    Assign "acquisition_path" (dot "three_dimensional_models" "GRADIENT_TABLES_PATH");
    Assign "bvalues" (load_table "bvals_hcp_wu_minn.txt");
    Assign "bvalues_SI" (BinOp "*" (Var "bvalues") (Num "1e6"));
    Assign "gradient_directions" (load_table "bvecs_hcp_wu_minn.txt");
    Assign "delta" (Num "0.0106");
    Assign "Delta" (Num "0.0431")] ++ microstruktur_acquisition)%list;
   [Assign "stick" (Call (dot "three_dimensional_models" "I1Stick") [] [])];
   [ExprStmt (dot "stick" "parameter_cardinality")];
   [Assign "mu" (Tuple [half_pi_expr; half_pi_expr]);
    Assign "lambda_par" (Num "1.7e-9");
    Assign "parameter_vector"
      (Call (dot "stick" "parameters_to_parameter_vector") []
            [("lambda_par", Var "lambda_par"); ("mu", Var "mu")])];
   [Assign "E" (Call (dot "stick" "simulate_signal")
                     [Var "acq_scheme"; Var "parameter_vector"] [])];
   [Assign "initial_mu" (Call (Attr (dot "np" "random") "rand") [Num "2"] []);
    Assign "initial_lambda_par"
      (BinOp "*" (Call (Attr (dot "np" "random") "rand") [] []) (Num "1e-9"));
    Assign "x0"
      (Call (dot "stick" "parameters_to_parameter_vector") []
            [("lambda_par", Var "initial_lambda_par"); ("mu", Var "initial_mu")])];
   [Assign "res" (Call (dot "stick" "fit") [Var "E"; Var "acq_scheme"; Var "x0"] []);
    PrintStmt [Str "Initial guess:   "; Var "x0"];
    PrintStmt [Str "Optimized result:"; Var "res"];
    PrintStmt [Str "Ground truth:    "; Var "parameter_vector"]];
   [ExprStmt (Call (dot "stick" "parameter_vector_to_parameters") [Var "res"] [])]].

(** The supplied source: the code cells of every notebook. *)
Definition supplied_source : list notebook :=
  [combining_notebook; combining_microstruktur_notebook; distributed_notebook;
   simple_notebook].

(** What a statement does with the names it uses: a call of a method of an
    object, a call of a function or class of an imported module, an
    attribute read from an object or from a module. *)
Inductive use :=
  | MethodCall (name : string)
  | FunctionCall (name : string)
  | ObjectAttribute (name : string)
  | ModuleAttribute (name : string).

(** The names an import statement binds. *)
Definition import_names (s : stmt) : list string :=
  match s with
  | ImportFrom _ names => names
  | ImportAs _ alias => [alias]
  | _ => []
  end.

(** Whether an expression denotes a module: an imported name or an
    attribute of one ([np.random]). *)
Fixpoint is_module_path (mods : list string) (e : expr) : bool :=
  match e with
  | Var x => bool_decide (x ∈ mods)
  | Attr o _ => is_module_path mods o
  | _ => false
  end.

Fixpoint expr_uses (mods : list string) (e : expr) : list use :=
  match e with
  | Var _ | Num _ | Str _ => []
  | Tuple es | ListLit es => concat (map (expr_uses mods) es)
  | BinOp _ a b => (expr_uses mods a ++ expr_uses mods b)%list
  | Attr o name =>
      (if is_module_path mods o then ModuleAttribute name else ObjectAttribute name)
        :: expr_uses mods o
  | Call f args kwargs =>
      (match f with
       | Attr o name =>
           (if is_module_path mods o then FunctionCall name else MethodCall name)
             :: expr_uses mods o
       | Var x => [FunctionCall x]
       | _ => expr_uses mods f
       end ++ concat (map (expr_uses mods) args)
           ++ concat (map (fun '(_, e) => expr_uses mods e) kwargs))%list
  end.

Fixpoint stmt_uses (mods : list string) (s : stmt) : list use :=
  match s with
  | ImportFrom _ _ | ImportAs _ _ => []
  | Assign _ e | ExprStmt e => expr_uses mods e
  | PrintStmt es => concat (map (expr_uses mods) es)
  | FunctionDef _ _ body => concat (map (stmt_uses mods) body)
  | ClassDef _ bases body =>
      (concat (map (expr_uses mods) bases) ++ concat (map (stmt_uses mods) body))%list
  end.

(** The uses of a notebook, with its imported names as the modules. *)
Definition notebook_uses (nb : notebook) : list use :=
  let ss := concat nb in
  concat (map (stmt_uses (concat (map import_names ss))) ss).

Definition source_uses (src : list notebook) : list use :=
  concat (map notebook_uses src).

Definition method_calls (src : list notebook) : list string :=
  omap (fun u => match u with MethodCall m => Some m | _ => None end) (source_uses src).

Definition function_calls (src : list notebook) : list string :=
  omap (fun u => match u with FunctionCall f => Some f | _ => None end) (source_uses src).

Definition object_attributes (src : list notebook) : list string :=
  omap (fun u => match u with ObjectAttribute a => Some a | _ => None end) (source_uses src).

Definition module_attributes (src : list notebook) : list string :=
  omap (fun u => match u with ModuleAttribute a => Some a | _ => None end) (source_uses src).

(** Whether a statement defines a function or a class. *)
Definition is_definition (s : stmt) : bool :=
  match s with
  | FunctionDef _ _ _ | ClassDef _ _ _ => true
  | _ => false
  end.

(** Whether a statement is an import, an assignment, an expression or a
    print. *)
Definition is_simple_statement (s : stmt) : bool := negb (is_definition s).

(** *** Running the notebook cells *)

(** The objects of the two libraries the notebooks build: a [dmipy] model
    (compartment or distributed), a [dmipy] [MultiCompartmentModel], or a
    [microstruktur] model with its class name and parameter cardinality. *)
Inductive libmodel :=
  | DmipyModel (m : model)
  | DmipyMultiCompartment (mc : MultiCompartmentModel)
  | MicrostrukturModel (cls : string) (card : list (string * nat)).

Definition libmodel_card (lm : libmodel) : list (string * nat) :=
  match lm with
  | DmipyModel m => parameter_cardinality m
  | DmipyMultiCompartment mc => mc_parameter_cardinality mc
  | MicrostrukturModel _ card => card
  end.

(** The values the cells compute, as far as the library calls use them:
    an imported module, class or function (by name); a model; a [dmipy]
    fit result; a parameter vector or a parameter dict of a model with the
    given cardinality; an integer, a float, a tuple or array of [n]
    numbers; a string; a list; an acquisition scheme; a simulated signal;
    anything else. *)
Inductive value :=
  | VImported (name : string)
  | VModel (lm : libmodel)
  | VFitted (card : list (string * nat))
  | VVector (card : list (string * nat))
  | VParameters (card : list (string * nat))
  | VInt (n : nat)
  | VFloat
  | VArray (n : nat)
  | VString (s : string)
  | VList (vs : list value)
  | VAcquisition
  | VSignal
  | VOther.

(** A decimal integer literal. *)
Fixpoint parse_digits (s : string) (acc : nat) : option nat :=
  match s with
  | EmptyString => Some acc
  | String a s' =>
      let d := (Ascii.nat_of_ascii a - 48)%nat in
      if bool_decide (48 <= Ascii.nat_of_ascii a <= 57)%nat
      then parse_digits s' (10 * acc + d)%nat else None
  end.

Definition literal_value (lit : string) : value :=
  match lit with
  | EmptyString => VOther
  | _ => match parse_digits lit 0 with Some n => VInt n | None => VFloat end
  end.

(** The number of entries of a numeric value ([np.atleast_1d(v).size]). *)
Definition value_size (v : value) : option nat :=
  match v with
  | VInt _ | VFloat => Some 1%nat
  | VArray n => Some n
  | _ => None
  end.

Definition is_number (v : value) : bool :=
  match v with VInt _ | VFloat => true | _ => false end.

(** A tuple of numbers is an array of that many numbers. *)
Definition tuple_value (vs : list value) : value :=
  if forallb is_number vs then VArray (length vs) else VOther.

(** Arithmetic with a number broadcasts over an array. *)
Definition binop_value (a b : value) : value :=
  match a, b with
  | (VInt _ | VFloat), (VInt _ | VFloat) => VFloat
  | VArray n, (VInt _ | VFloat) | (VInt _ | VFloat), VArray n => VArray n
  | _, _ => VOther
  end.

Definition kwarg (kwargs : list (string * value)) (k : string) : option value :=
  (fun ikv : nat * (string * value) => ikv.2.2) <$> list_find (fun kv => kv.1 = k) kwargs.

(** The models of a [models=[...]] keyword argument, when they all are
    [dmipy] models. *)
Definition dmipy_models (v : option value) : option (list model) :=
  match v with
  | Some (VList vs) =>
      mapM (fun v => match v with VModel (DmipyModel m) => Some m | _ => None end) vs
  | _ => None
  end.

Definition microstruktur_models (v : option value)
    : option (list (string * list (string * nat))) :=
  match v with
  | Some (VList vs) =>
      mapM (fun v => match v with
                     | VModel (MicrostrukturModel c card) => Some (c, card)
                     | _ => None
                     end) vs
  | _ => None
  end.

(** Modelled from the spec: [PartialVolumeCombinedMicrostrukturModel] names
    the parameters of its models with the prefixes of [model_names] and
    adds [partial_volume_0 .. partial_volume_(n-2)], as printed by the
    notebook (its printed dict is not in the order of the models; only the
    names and cardinalities are used here). *)
Definition microstruktur_combined (ms : list (string * list (string * nat)))
    : list (string * nat) :=
  concat (zip_with prefix_card (model_names_go ∅ (map fst ms)) (map snd ms))
  ++ partial_volume_card (length ms - 1).

(** Modelled from the spec: the library classes and functions the cells
    call, with the objects they return ([dmipy] and [microstruktur]
    constructors, acquisition schemes); any other function returns an
    unknown value. *)
Definition library_call (name : string) (args : list value)
    (kwargs : list (string * value)) : value :=
  match name with
  | "C1Stick" => VModel (DmipyModel C1Stick)
  | "G1Ball" => VModel (DmipyModel G1Ball)
  | "G2Zeppelin" => VModel (DmipyModel G2Zeppelin)
  | "G3RestrictedZeppelin" => VModel (DmipyModel G3RestrictedZeppelin)
  | "C4CylinderGaussianPhaseApproximation" =>
      VModel (DmipyModel C4CylinderGaussianPhaseApproximation)
  | "SD1WatsonDistributed" =>
      match dmipy_models (kwarg kwargs "models") with
      | Some ms => VModel (DmipyModel (SD1WatsonDistributed ms))
      | None => VOther
      end
  | "SD2BinghamDistributed" =>
      match dmipy_models (kwarg kwargs "models") with
      | Some ms => VModel (DmipyModel (SD2BinghamDistributed ms))
      | None => VOther
      end
  | "DD1GammaDistributed" =>
      match dmipy_models (kwarg kwargs "models"), kwarg kwargs "target_parameter" with
      | Some ms, Some (VString t) => VModel (DmipyModel (DD1GammaDistributed ms t))
      | Some ms, None => VModel (DmipyModel (DD1GammaDistributed ms "diameter"))
      | _, _ => VOther
      end
  | "MultiCompartmentModel" =>
      match dmipy_models (kwarg kwargs "models") with
      | Some ms => VModel (DmipyMultiCompartment {| mc_models := ms |})
      | None => VOther
      end
  | "I1Stick" => VModel (MicrostrukturModel "I1Stick" [("lambda_par", 1%nat); ("mu", 2%nat)])
  | "E3Ball" => VModel (MicrostrukturModel "E3Ball" [("lambda_iso", 1%nat)])
  | "PartialVolumeCombinedMicrostrukturModel" =>
      match microstruktur_models (kwarg kwargs "models") with
      | Some ms => VModel (MicrostrukturModel "PartialVolumeCombinedMicrostrukturModel"
                                              (microstruktur_combined ms))
      | None => VOther
      end
  | "wu_minn_hcp_acquisition_scheme" | "acquisition_scheme_from_bvalues" => VAcquisition
  | "rand" => match args with
              | [] => VFloat
              | [VInt n] => VArray n
              | _ => VOther
              end
  | _ => VOther
  end.

(** Modelled from the spec: the methods of a model object.  [fit] of a
    [dmipy] model returns a fitted model, [fit] of a [microstruktur] model
    the fitted parameter vector. *)
Definition method_result (lm : libmodel) (name : string) : value :=
  let card := libmodel_card lm in
  match name with
  | "parameters_to_parameter_vector" => VVector card
  | "parameter_vector_to_parameters" => VParameters card
  | "simulate_signal" => VSignal
  | "fit" => match lm with
             | MicrostrukturModel _ _ => VVector card
             | _ => VFitted card
             end
  | _ => VOther
  end.

(** Modelled from the spec: attribute reads ([np.pi] is a float,
    [fitted_parameters] the parameter dict of the fit). *)
Definition attribute_value (o : value) (name : string) : value :=
  match o, name with
  | VImported _, "pi" => VFloat
  | VImported _, _ => VImported name
  | VFitted card, "fitted_parameters" => VParameters card
  | _, _ => VOther
  end.

(** A call [o.name(...)] made while running the cells, whatever [o] is (a
    model, an imported module or class, any other object): the receiving
    object, the method, the positional and the keyword arguments. *)
Record call_site := {
  site_receiver : value;
  site_method : string;
  site_args : list value;
  site_kwargs : list (string * value)
}.

(** Evaluation of an expression in an environment: its value and the
    [o.name(...)] calls it makes, in order; [None] is a [NameError]. *)
Fixpoint eval (env : gmap string value) (e : expr) : option (value * list call_site) :=
  let fix eval_list (es : list expr) : option (list value * list call_site) :=
    match es with
    | [] => Some ([], [])
    | e :: es' =>
        '(v, t) ← eval env e;
        '(vs, ts) ← eval_list es';
        Some (v :: vs, (t ++ ts)%list)
    end in
  let fix eval_kwargs (kws : list (string * expr))
      : option (list (string * value) * list call_site) :=
    match kws with
    | [] => Some ([], [])
    | (k, e) :: kws' =>
        '(v, t) ← eval env e;
        '(vs, ts) ← eval_kwargs kws';
        Some ((k, v) :: vs, (t ++ ts)%list)
    end in
  match e with
  | Var x => v ← env !! x; Some (v, [])
  | Num lit => Some (literal_value lit, [])
  | Str s => Some (VString s, [])
  | Tuple es => '(vs, t) ← eval_list es; Some (tuple_value vs, t)
  | ListLit es => '(vs, t) ← eval_list es; Some (VList vs, t)
  | BinOp _ a b =>
      '(va, ta) ← eval env a;
      '(vb, tb) ← eval env b;
      Some (binop_value va vb, (ta ++ tb)%list)
  | Attr o name => '(vo, t) ← eval env o; Some (attribute_value vo name, t)
  | Call (Attr o name) args kwargs =>
      '(vo, to) ← eval env o;
      '(vs, ta) ← eval_list args;
      '(kvs, tk) ← eval_kwargs kwargs;
      let site := {| site_receiver := vo; site_method := name;
                     site_args := vs; site_kwargs := kvs |} in
      let v := match vo with
               | VModel lm => method_result lm name
               | VImported _ => library_call name vs kvs
               | _ => VOther
               end in
      Some (v, (to ++ ta ++ tk ++ [site])%list)
  | Call f args kwargs =>
      '(vf, tf) ← eval env f;
      '(vs, ta) ← eval_list args;
      '(kvs, tk) ← eval_kwargs kwargs;
      match vf with
      | VImported name => Some (library_call name vs kvs, (tf ++ ta ++ tk)%list)
      | _ => Some (VOther, (tf ++ ta ++ tk)%list)
      end
  end.

Fixpoint eval_all (env : gmap string value) (es : list expr)
    : option (list value * list call_site) :=
  match es with
  | [] => Some ([], [])
  | e :: es' =>
      '(v, t) ← eval env e;
      '(vs, ts) ← eval_all env es';
      Some (v :: vs, (t ++ ts)%list)
  end.

(** One statement: an import binds its names, an assignment its target;
    a [def] or [class] binds its name (its body is not run). *)
Definition exec (env : gmap string value) (s : stmt)
    : option (gmap string value * list call_site) :=
  match s with
  | ImportFrom _ names =>
      Some (foldl (fun env x => <[x := VImported x]> env) env names, [])
  | ImportAs _ alias => Some (<[alias := VImported alias]> env, [])
  | Assign x e => '(v, t) ← eval env e; Some (<[x := v]> env, t)
  | ExprStmt e => '(_, t) ← eval env e; Some (env, t)
  | PrintStmt es => '(_, t) ← eval_all env es; Some (env, t)
  | FunctionDef name _ _ | ClassDef name _ _ => Some (<[name := VOther]> env, [])
  end.

Fixpoint exec_all (env : gmap string value) (ss : list stmt)
    : option (gmap string value * list call_site) :=
  match ss with
  | [] => Some (env, [])
  | s :: ss' =>
      '(env', t) ← exec env s;
      '(env'', ts) ← exec_all env' ss';
      Some (env'', (t ++ ts)%list)
  end.

(** Running a notebook: its cells in order, from an empty namespace. *)
Definition run_notebook (nb : notebook) : option (gmap string value * list call_site) :=
  exec_all ∅ (concat nb).

(** The [o.name(...)] calls made by running a notebook ([] if it fails). *)
Definition notebook_trace (nb : notebook) : list call_site :=
  match run_notebook nb with Some (_, t) => t | None => [] end.

(** An empty call site, the default of lookups in a trace. *)
Definition no_site : call_site :=
  {| site_receiver := VOther; site_method := ""; site_args := []; site_kwargs := [] |}.

(** The first call of a method in the trace of a notebook. *)
Definition first_call (nb : notebook) (method : string) : call_site :=
  default no_site
    ((fun ic : nat * call_site => ic.2) <$>
       list_find (fun c => site_method c = method) (notebook_trace nb)).

(** A stand-in component signal for the examples: the sum of the first
    entries of the component's parameters, so that the result depends on
    which values reach which component. *)
Definition stand_in_signal (m : model) (acq : unit)
    (parameters : gmap string (list Q)) : Q :=
  map_fold (fun _ v acc => (default 0%Q (head v) + acc)%Q) 0%Q parameters.

(** The embedding reproduces the outputs recorded in the notebooks
    ([parameter_names] is printed in dict order, hence up to permutation). *)
Example ball_and_stick_cardinality :
  mc_parameter_cardinality ball_and_stick =
    [("G1Ball_1_lambda_iso", 1%nat); ("C1Stick_1_mu", 2%nat);
     ("C1Stick_1_lambda_par", 1%nat); ("partial_volume_0", 1%nat);
     ("partial_volume_1", 1%nat)].
Proof. vm_compute. reflexivity. Qed.

Example watson_bundle_names :
  parameter_names watson_bundle ≡ₚ
    ["G2Zeppelin_1_lambda_perp"; "SD1Watson_1_odi"; "G2Zeppelin_1_lambda_par";
     "SD1Watson_1_mu"; "C1Stick_1_lambda_par"; "partial_volume_0"].
Proof. vm_compute. apply (bool_decide_unpack _). vm_compute. reflexivity. Qed.

Example bingham_bundle_names :
  parameter_names bingham_bundle ≡ₚ
    ["SD2Bingham_1_odi"; "SD2Bingham_1_beta_fraction"; "G2Zeppelin_1_lambda_perp";
     "SD2Bingham_1_psi"; "SD2Bingham_1_mu"; "G2Zeppelin_1_lambda_par";
     "C1Stick_1_lambda_par"; "partial_volume_0"].
Proof. apply (bool_decide_unpack _). vm_compute. reflexivity. Qed.

Example gamma_bundle_names :
  parameter_names gamma_bundle ≡ₚ
    ["C4CylinderGaussianPhaseApproximation_1_mu";
     "C4CylinderGaussianPhaseApproximation_1_lambda_par";
     "DD1Gamma_1_beta"; "DD1Gamma_1_alpha"].
Proof. apply (bool_decide_unpack _). vm_compute. reflexivity. Qed.

Example bingham_bundle2_names :
  parameter_names bingham_bundle2 ≡ₚ
    ["G3RestrictedZeppelin_1_A"; "SD2Bingham_1_odi"; "SD2Bingham_1_beta_fraction";
     "SD2Bingham_1_psi"; "SD2Bingham_1_mu";
     "C4CylinderGaussianPhaseApproximation_1_lambda_par";
     "G3RestrictedZeppelin_1_lambda_inf"; "G3RestrictedZeppelin_1_lambda_par";
     "C4CylinderGaussianPhaseApproximation_1_diameter"; "partial_volume_0"].
Proof. apply (bool_decide_unpack _). vm_compute. reflexivity. Qed.

Example white_matter_mc_model_names :
  mc_parameter_names white_matter_mc_model ≡ₚ
    ["DD1GammaDistributed_1_SD2BinghamDistributed_1_C4CylinderGaussianPhaseApproximation_1_lambda_par";
     "DD1GammaDistributed_1_SD2BinghamDistributed_1_G3RestrictedZeppelin_1_lambda_inf";
     "DD1GammaDistributed_1_DD1Gamma_1_beta";
     "DD1GammaDistributed_1_SD2BinghamDistributed_1_SD2Bingham_1_odi";
     "DD1GammaDistributed_1_SD2BinghamDistributed_1_partial_volume_0";
     "DD1GammaDistributed_1_SD2BinghamDistributed_1_SD2Bingham_1_psi";
     "DD1GammaDistributed_1_SD2BinghamDistributed_1_SD2Bingham_1_mu";
     "DD1GammaDistributed_1_SD2BinghamDistributed_1_G3RestrictedZeppelin_1_lambda_par";
     "DD1GammaDistributed_1_SD2BinghamDistributed_1_G3RestrictedZeppelin_1_A";
     "DD1GammaDistributed_1_SD2BinghamDistributed_1_SD2Bingham_1_beta_fraction";
     "DD1GammaDistributed_1_DD1Gamma_1_alpha"].
Proof. apply (bool_decide_unpack _). vm_compute. reflexivity. Qed.

(** The notebook's ball-and-stick formula on the stand-in signal:
    [E = 0.5 * E_Ball(lambda_iso) + 0.5 * E_Stick(mu, lambda_par)]. *)
Example ball_and_stick_signal :
  (simulate_signal stand_in_signal ball_and_stick tt ball_and_stick_vector ==
   (1 # 2) * stand_in_signal G1Ball tt
               {[ "lambda_iso" := [3 # 1000000000] ]} +
   (1 # 2) * stand_in_signal C1Stick tt
               (<[ "mu" := [half_pi; half_pi] ]>
                  {[ "lambda_par" := [17 # 10000000000] ]}))%Q.
Proof. vm_compute. reflexivity. Qed.

(* ================================================================== *)
(** ** Parameter vectors and parameter maps *)

Lemma card_roundtrip_lookup (card : list (string * nat))
    (A : gmap string pvalue) :
  card_valid card A = true ->
  exists vec, card_to_parameter_vector card A = Some vec /\
    forall (acc : gmap string (list Q)) (p : string),
      card_vector_to_parameters card vec acc !! p =
        if decide (p ∈ map fst card) then atleast_1d <$> A !! p else acc !! p.
Proof.
  induction card as [|[q c] card IH]; cbn [card_valid forallb card_to_parameter_vector card_vector_to_parameters]; intros Hv.
  - exists []. split; [done|]. intros acc p. destruct (decide (p ∈ map fst [])); [set_solver|done].
  - apply andb_true_iff in Hv as [Hq Hv]. simpl in Hq.
    destruct (A !! q) as [v|] eqn:Hvq; [|discriminate].
    apply bool_decide_eq_true in Hq.
    destruct (IH Hv) as [rest [Hrest Hlook]].
    exists (atleast_1d v ++ rest)%list. rewrite Hrest. split; [done|].
    intros acc p. rewrite <- Hq, take_app_length, drop_app_length, Hlook.
    cbn [map fst]. repeat case_decide; try done; try (exfalso; set_solver).
    + assert (p = q) as -> by set_solver. by rewrite lookup_insert_eq, Hvq.
    + rewrite lookup_insert_ne by set_solver. done.
Qed.

Lemma card_vector_to_parameters_lookup (card : list (string * nat))
    (vec : list Q) (acc : gmap string (list Q)) (p : string) (c : nat) :
  NoDup (map fst card) ->
  (p, c) ∈ card ->
  sum_list (map snd card) <= length vec ->
  exists xs, card_vector_to_parameters card vec acc !! p = Some xs /\
    length xs = c.
Proof.
  revert vec acc.
  induction card as [|[q d] card IH]; simpl; intros vec acc Hnd Hin Hlen;
    [set_solver|].
  apply NoDup_cons in Hnd as [Hq Hnd].
  apply elem_of_cons in Hin as [[= <- <-]|Hin].
  - clear IH. exists (take c vec). split; [|rewrite length_take; lia].
    assert (Hkeep : forall card' vec' acc',
      p ∉ map fst card' -> acc' !! p = Some (take c vec) ->
      card_vector_to_parameters card' vec' acc' !! p = Some (take c vec)).
    { induction card' as [|[r e] card'' IHc]; simpl; intros vec' acc' Hn Ha;
        [done|].
      apply IHc; [set_solver|].
      rewrite lookup_insert_ne by set_solver. done. }
    apply Hkeep; [done|]. by rewrite lookup_insert_eq.
  - apply IH; [done|done|]. rewrite length_drop. lia.
Qed.

Lemma card_vector_to_parameters_dom (card : list (string * nat))
    (vec : list Q) (acc : gmap string (list Q)) :
  dom (card_vector_to_parameters card vec acc) =
    dom acc ∪ list_to_set (map fst card).
Proof.
  revert vec acc.
  induction card as [|[q d] card IH]; simpl; intros vec acc.
  - set_solver.
  - rewrite IH, dom_insert_L. set_solver.
Qed.

Lemma card_vectors_to_parameters_lookup (card : list (string * nat))
    (vecs : list (list Q)) (acc : gmap string (list (list Q))) (p : string)
    (c : nat) :
  NoDup (map fst card) ->
  (p, c) ∈ card ->
  Forall (fun v => sum_list (map snd card) <= length v) vecs ->
  exists rows, card_vectors_to_parameters card vecs acc !! p = Some rows /\
    length rows = length vecs /\ Forall (fun r => length r = c) rows.
Proof.
  revert vecs acc.
  induction card as [|[q d] card IH]; simpl; intros vecs acc Hnd Hin Hlen;
    [set_solver|].
  apply NoDup_cons in Hnd as [Hq Hnd].
  apply elem_of_cons in Hin as [[= <- <-]|Hin].
  - clear IH. exists (map (take c) vecs). split; [|split].
    + assert (Hkeep : forall card' vecs' acc',
        p ∉ map fst card' -> acc' !! p = Some (map (take c) vecs) ->
        card_vectors_to_parameters card' vecs' acc' !! p =
          Some (map (take c) vecs)).
      { induction card' as [|[r e] card'' IHc]; simpl; intros vecs' acc' Hn Ha;
          [done|].
        apply IHc; [set_solver|].
        rewrite lookup_insert_ne by set_solver. done. }
      apply Hkeep; [done|]. by rewrite lookup_insert_eq.
    + by rewrite length_map.
    + apply Forall_map. eapply Forall_impl; [exact Hlen|].
      intros v Hv. simpl in *. rewrite length_take. lia.
  - destruct (IH (map (drop d) vecs) (<[q := map (take d) vecs]> acc) Hnd Hin)
      as [rows [Hr [Hn Hf]]].
    { apply Forall_map. eapply Forall_impl; [exact Hlen|].
      intros v Hv. simpl in *. rewrite length_drop. lia. }
    exists rows. rewrite length_map in Hn. auto.
Qed.

Lemma card_vectors_to_parameters_dom (card : list (string * nat))
    (vecs : list (list Q)) (acc : gmap string (list (list Q))) :
  dom (card_vectors_to_parameters card vecs acc) =
    dom acc ∪ list_to_set (map fst card).
Proof.
  revert vecs acc.
  induction card as [|[q d] card IH]; simpl; intros vecs acc.
  - set_solver.
  - rewrite IH, dom_insert_L. set_solver.
Qed.

(* ================================================================== *)
(** ** C3: [parameter_vector_to_parameters] after [parameters_to_parameter_vector] *)

(** C3 (as stated, refuted): the round trip does not return the original
    keyword arguments exactly.  On the notebook's ball-and-stick call the
    scalar [C1Stick_1_lambda_par=1.7e-9] comes back as the array
    [[1.7e-9]], as the notebook's printed output shows. *)
Lemma parameter_vector_roundtrip_not_identity :
  valid_assignment ball_and_stick ball_and_stick_parameters = true /\
  exists vec,
    parameters_to_parameter_vector ball_and_stick ball_and_stick_parameters
      = Some vec /\
    Array <$> parameter_vector_to_parameters ball_and_stick vec
      <> ball_and_stick_parameters.
Proof.
  split; [vm_compute; reflexivity|].
  eexists; split; [vm_compute; reflexivity|].
  intros H. apply (f_equal (lookup "C1Stick_1_lambda_par")) in H.
  vm_compute in H. discriminate H.
Qed.

(** C3 (amended): for every model and every valid assignment (each
    parameter of the model given with its cardinality), converting to a
    parameter vector and back yields the assignment restricted to the
    model's parameter names, each value as a one-dimensional array (a
    scalar [v] comes back as [[v]], a tuple or array unchanged). *)
Theorem parameter_vector_roundtrip {M} `{ModelProperties M} (m : M)
    (parameters : gmap string pvalue) :
  valid_assignment m parameters = true ->
  exists vec, parameters_to_parameter_vector m parameters = Some vec /\
    parameter_vector_to_parameters m vec =
      atleast_1d <$>
        filter (fun kv => kv.1 ∈ map fst (parameter_cardinality_of m))
          parameters.
Proof.
  intros Hv. unfold valid_assignment in Hv.
  destruct (card_roundtrip_lookup _ _ Hv) as [vec [Hvec Hlook]].
  exists vec. split; [exact Hvec|].
  apply map_eq. intros p. unfold parameter_vector_to_parameters.
  rewrite Hlook, lookup_fmap, map_lookup_filter.
  destruct (parameters !! p) as [v|] eqn:Hp; simpl; case_decide; simpl;
    try done.
  - rewrite option_guard_True by done. done.
  - rewrite option_guard_False by done. done.
Qed.

Lemma parameter_vector_roundtrip_witness :
  valid_assignment ball_and_stick ball_and_stick_parameters = true /\
  exists vec,
    parameters_to_parameter_vector ball_and_stick ball_and_stick_parameters
      = Some vec /\
    parameter_vector_to_parameters ball_and_stick vec =
      atleast_1d <$>
        filter (fun kv => kv.1 ∈ map fst
                  (parameter_cardinality_of ball_and_stick))
          ball_and_stick_parameters.
Proof.
  assert (Hv : valid_assignment ball_and_stick ball_and_stick_parameters = true)
    by (vm_compute; reflexivity).
  split; [exact Hv|].
  exact (parameter_vector_roundtrip ball_and_stick ball_and_stick_parameters Hv).
Defined.

(* ================================================================== *)
(** ** C4: shape of the returned parameter maps *)

(** C4 (as stated, refuted): the values of [fitted_parameters] carry one
    row per fitted voxel (the notebook prints [array([[1.70004007e-09]])]),
    so for a fit over two voxels the value of a cardinality-1 parameter
    holds two numbers. *)
Lemma fitted_parameters_not_cardinality :
  exists rows,
    fitted_parameters
      (fit ball_and_stick (fun _ => ball_and_stick_vector) [[1%Q]; [1%Q]])
      !! "G1Ball_1_lambda_iso" = Some rows /\
    ("G1Ball_1_lambda_iso", 1%nat) ∈ parameter_cardinality_of ball_and_stick /\
    length (concat rows) <> 1%nat.
Proof.
  eexists. split; [vm_compute; reflexivity|]. split.
  - apply (bool_decide_unpack _). vm_compute. reflexivity.
  - vm_compute. discriminate.
Qed.

(** C4 (amended): for a model with distinct parameter names,
    [parameter_vector_to_parameters] of a parameter vector of the model's
    length is keyed by exactly the model's parameter names and holds under
    each name exactly as many entries as its cardinality; the
    [fitted_parameters] of a fit is keyed by exactly the same names and
    holds under each name one row per fitted voxel, each row of that
    cardinality. *)
Theorem parameter_maps_cardinality {M} `{ModelProperties M} (m : M)
    (vec : list Q) (optimize : list Q -> list Q) (data : list (list Q)) :
  NoDup (map fst (parameter_cardinality_of m)) ->
  length vec = total_cardinality m ->
  (forall voxel, length (optimize voxel) = total_cardinality m) ->
  dom (parameter_vector_to_parameters m vec) =
    list_to_set (map fst (parameter_cardinality_of m)) /\
  dom (fitted_parameters (fit m optimize data)) =
    list_to_set (map fst (parameter_cardinality_of m)) /\
  forall p c, (p, c) ∈ parameter_cardinality_of m ->
    (exists xs, parameter_vector_to_parameters m vec !! p = Some xs /\
                length xs = c) /\
    (exists rows, fitted_parameters (fit m optimize data) !! p = Some rows /\
                  length rows = length data /\
                  Forall (fun r => length r = c) rows).
Proof.
  intros Hnd Hlen Hopt. unfold total_cardinality in *.
  split; [|split].
  - unfold parameter_vector_to_parameters.
    rewrite card_vector_to_parameters_dom, dom_empty_L. set_solver.
  - unfold fitted_parameters, fit; simpl.
    rewrite card_vectors_to_parameters_dom, dom_empty_L. set_solver.
  - intros p c Hin. split.
    + apply card_vector_to_parameters_lookup; [done|done|lia].
    + unfold fitted_parameters, fit; simpl.
      destruct (card_vectors_to_parameters_lookup
                  (parameter_cardinality_of m) (map optimize data) ∅ p c Hnd Hin)
        as [rows [Hr [Hn Hf]]].
      { apply Forall_map, Forall_forall. intros voxel _. rewrite Hopt. lia. }
      exists rows. rewrite length_map in Hn. auto.
Qed.

Lemma parameter_maps_cardinality_witness :
  NoDup (map fst (parameter_cardinality_of ball_and_stick)) /\
  length ball_and_stick_vector = total_cardinality ball_and_stick /\
  dom (parameter_vector_to_parameters ball_and_stick ball_and_stick_vector) =
    list_to_set (map fst (parameter_cardinality_of ball_and_stick)) /\
  dom (fitted_parameters
         (fit ball_and_stick (fun _ => ball_and_stick_vector) [[1%Q]])) =
    list_to_set (map fst (parameter_cardinality_of ball_and_stick)).
Proof.
  assert (Hnd : NoDup (map fst (parameter_cardinality_of ball_and_stick)))
    by (apply (bool_decide_unpack _); vm_compute; reflexivity).
  assert (Hlen : length ball_and_stick_vector = total_cardinality ball_and_stick)
    by (vm_compute; reflexivity).
  destruct (parameter_maps_cardinality ball_and_stick ball_and_stick_vector
              (fun _ => ball_and_stick_vector) [[1%Q]] Hnd Hlen
              (fun _ => Hlen)) as [H1 [H2 _]].
  auto.
Defined.

(* ================================================================== *)
(** ** C1: [simulate_signal] of a [MultiCompartmentModel] *)

Lemma zip_with_ext_in {A B C} (f g : A -> B -> C) (l1 : list A) (l2 : list B) :
  (forall x y, In (x, y) (zip l1 l2) -> f x y = g x y) ->
  zip_with f l1 l2 = zip_with g l1 l2.
Proof.
  revert l2. induction l1 as [|x l1 IH]; intros [|y l2] Hfg; simpl; try done.
  f_equal.
  - apply Hfg. by left.
  - apply IH. intros a b Hin. apply Hfg. by right.
Qed.

Lemma omap_ext_in {A B} (f g : A -> option B) (l : list A) :
  (forall x, In x l -> f x = g x) -> omap f l = omap g l.
Proof.
  induction l as [|x l IH]; intros Hfg; [done|].
  assert (Hl : omap f l = omap g l) by (apply IH; intros; apply Hfg; by right).
  cbn in *. rewrite (Hfg x) by (by left). rewrite Hl. done.
Qed.

Lemma component_name_in (pres : list string) (ms : list model) (pre : string)
    (m : model) (p : string) (c : nat) :
  In (pre, m) (zip pres ms) -> In (p, c) (parameter_cardinality m) ->
  In (pre +:+ p)
     (map fst (concat (zip_with (fun pre m => prefix_card pre (parameter_cardinality m))
                                pres ms))).
Proof.
  revert ms. induction pres as [|pre' pres IH]; intros [|m' ms] Hin Hc;
    simpl in *; try contradiction.
  rewrite map_app, in_app_iff.
  destruct Hin as [[= <- <-]|Hin].
  - left. unfold prefix_card. rewrite map_map. apply in_map_iff.
    exists (p, c). split; [done|exact Hc].
  - right. eapply IH; eauto.
Qed.

Lemma partial_volume_name_in (mc : MultiCompartmentModel) (i : nat) :
  (1 < length (mc_models mc))%nat -> (i < length (mc_models mc))%nat ->
  In (partial_volume_name i) (mc_parameter_names mc).
Proof.
  intros H1 Hi. unfold mc_parameter_names, mc_parameter_cardinality.
  rewrite map_app, in_app_iff. right.
  unfold mc_partial_volume_card. rewrite bool_decide_eq_true_2 by lia.
  unfold partial_volume_card. rewrite map_map. apply in_map_iff.
  exists i. split; [done|]. apply in_seq. lia.
Qed.

Lemma fold_left_weighted (l : list (Q * Q)) (a : Q) :
  (fold_left (fun acc fe => acc + fe.1 * fe.2) l a ==
   a + foldr (fun fe acc => fe.1 * fe.2 + acc) 0 l)%Q.
Proof.
  revert a. induction l as [|[f e] l IH]; intros a; simpl.
  - ring.
  - rewrite IH. ring.
Qed.

(** C1: for every [MultiCompartmentModel] and every valid assignment of
    its parameters, simulating the signal of the parameter vector built by
    [parameters_to_parameter_vector] gives the volume-fraction weighted
    combination of the component models' signals: [sum_i vf_i * E_i] with
    [vf_i] the given [partial_volume_i] (the single fraction 1 for a
    one-model list) and [E_i] the signal of model [i] for its own
    parameters.  For ball and stick: [E = vf_0 * E_Ball + vf_1 * E_Stick]. *)
Theorem simulate_signal_weighted {acquisition_scheme : Type}
    (model_signal : model -> acquisition_scheme -> gmap string (list Q) -> Q)
    (mc : MultiCompartmentModel) (acq : acquisition_scheme)
    (parameters : gmap string pvalue) :
  valid_assignment mc parameters = true ->
  exists vec, parameters_to_parameter_vector mc parameters = Some vec /\
    (simulate_signal model_signal mc acq vec ==
     weighted_combination (assigned_fractions mc parameters)
       (zip_with (fun pre m =>
                    model_signal m acq (assigned_component_parameters pre m parameters))
                 (model_names (mc_models mc)) (mc_models mc)))%Q.
Proof.
  intros Hv. destruct (card_roundtrip_lookup _ _ Hv) as [vec [Hvec Hlook]].
  exists vec. split; [exact Hvec|].
  unfold simulate_signal, mc_signal, parameter_vector_to_parameters.
  set (params := card_vector_to_parameters (parameter_cardinality_of mc) vec ∅).
  assert (Hp : forall p, In p (mc_parameter_names mc) ->
                 params !! p = atleast_1d <$> parameters !! p).
  { intros p Hin. unfold params. rewrite Hlook.
    rewrite decide_True; [done|]. by apply list_elem_of_In. }
  assert (Hpv : mc_partial_volumes mc params = assigned_fractions mc parameters).
  { unfold mc_partial_volumes, assigned_fractions.
    case_bool_decide as H1; [|done].
    apply map_ext_in. intros i Hi. apply in_seq in Hi.
    unfold assigned_fraction. rewrite Hp by (apply partial_volume_name_in; lia).
    by destruct (parameters !! partial_volume_name i). }
  assert (Hcomp :
    zip_with (fun pre m => model_signal m acq (component_parameters pre m params))
             (model_names (mc_models mc)) (mc_models mc) =
    zip_with (fun pre m =>
                model_signal m acq (assigned_component_parameters pre m parameters))
             (model_names (mc_models mc)) (mc_models mc)).
  { apply zip_with_ext_in. intros pre m Hin. f_equal.
    unfold component_parameters, assigned_component_parameters. f_equal.
    apply omap_ext_in. intros [p c] Hpc. simpl.
    rewrite Hp; [by destruct (parameters !! (pre +:+ p))|].
    unfold mc_parameter_names, mc_parameter_cardinality, component_card.
    rewrite map_app, in_app_iff. left. eapply component_name_in; eauto. }
  rewrite Hpv, Hcomp, fold_left_weighted. unfold weighted_combination. ring.
Qed.

Lemma simulate_signal_weighted_witness :
  valid_assignment ball_and_stick ball_and_stick_parameters = true /\
  exists vec,
    parameters_to_parameter_vector ball_and_stick ball_and_stick_parameters
      = Some vec /\
    (simulate_signal stand_in_signal ball_and_stick tt vec ==
     weighted_combination (assigned_fractions ball_and_stick ball_and_stick_parameters)
       (zip_with (fun pre m =>
          stand_in_signal m tt
            (assigned_component_parameters pre m ball_and_stick_parameters))
          (model_names (mc_models ball_and_stick)) (mc_models ball_and_stick)))%Q.
Proof.
  assert (Hv : valid_assignment ball_and_stick ball_and_stick_parameters = true)
    by (vm_compute; reflexivity).
  split; [exact Hv|].
  exact (simulate_signal_weighted stand_in_signal ball_and_stick tt
           ball_and_stick_parameters Hv).
Defined.

(* ================================================================== *)
(** ** C9: the parameter naming scheme *)

Lemma model_names_go_occurrence (counts : gmap string nat) (ms : list model) :
  model_names_go counts (map class_name ms) =
    imap (fun i m => class_name m +:+ "_" +:+
            pretty (default 0 (counts !! class_name m) +
                    occurrence (map class_name ms) i (class_name m))%nat +:+ "_")
         ms.
Proof.
  revert counts. induction ms as [|m ms IH]; intros counts; [done|].
  cbn [map model_names_go]. rewrite IH, imap_cons. f_equal.
  - unfold occurrence. simpl take. rewrite filter_cons_True by done.
    simpl. rewrite Nat.add_1_r. done.
  - apply imap_ext. intros i m' _. simpl. do 3 f_equal.
    unfold occurrence. simpl take.
    destruct (decide (class_name m = class_name m')) as [E|E].
    + rewrite E, lookup_insert_eq, filter_cons_True by done. f_equal. simpl. lia.
    + rewrite lookup_insert_ne, filter_cons_False by done. done.
Qed.

Lemma model_names_occurrence (ms : list model) :
  model_names ms = imap (occurrence_prefix ms) ms.
Proof.
  unfold model_names. rewrite model_names_go_occurrence.
  apply imap_ext. intros i m _. by rewrite lookup_empty.
Qed.

Lemma zip_with_imap_map {A B C D} (f : B -> C -> D) (g : nat -> A -> B)
    (h : A -> C) (l : list A) :
  zip_with f (imap g l) (map h l) = imap (fun i x => f (g i x) (h x)) l.
Proof.
  revert g. induction l as [|x l IH]; intros g; [done|].
  rewrite !imap_cons. simpl. f_equal. apply IH.
Qed.

Lemma zip_with_imap_self {A B D} (f : B -> A -> D) (g : nat -> A -> B)
    (l : list A) :
  zip_with f (imap g l) l = imap (fun i x => f (g i x) x) l.
Proof.
  revert g. induction l as [|x l IH]; intros g; [done|].
  rewrite !imap_cons. simpl. f_equal. apply IH.
Qed.

Lemma map_imap {A B C} (h : B -> C) (f : nat -> A -> B) (l : list A) :
  map h (imap f l) = imap (fun i x => h (f i x)) l.
Proof.
  revert f. induction l as [|x l IH]; intros f; [done|].
  rewrite !imap_cons. simpl. f_equal. apply IH.
Qed.

Lemma map_fst_prefix_card (pre : string) (card : list (string * nat)) :
  map fst (prefix_card pre card) = map (fun p => pre +:+ p) (map fst card).
Proof. unfold prefix_card. by rewrite !map_map. Qed.

Lemma map_fst_filter_target (target : string) (card : list (string * nat)) :
  map fst (filter (fun pc => pc.1 <> target) card) =
    filter (fun p => p <> target) (map fst card).
Proof.
  induction card as [|pc card IH]; [done|]. simpl map.
  destruct (decide (pc.1 = target)) as [E|E].
  - rewrite !filter_cons_False by auto. done.
  - rewrite !filter_cons_True by auto. simpl. by rewrite IH.
Qed.

Lemma map_fst_partial_volume_card (n : nat) :
  map fst (partial_volume_card n) = map partial_volume_name (seq 0 n).
Proof. unfold partial_volume_card. by rewrite map_map. Qed.

(** C9: in a [MultiCompartmentModel], the parameter names are, model by
    model in the order given, the model's own parameter names each preceded
    by ['<ClassName>_<k>_'] where [k] is the occurrence index of the model
    among the models of its class, followed (for two models or more) by
    [partial_volume_i] for each position [i] of the models list.  A
    distributed model names its components' parameters the same way
    (without the replaced target parameter), then its distribution's
    parameters under ['<Distribution>_1_'] and [partial_volume_i] for the
    positions [i] of all components but the last.  Since a component's own
    names are built by the same rule, nested prefixes compose. *)
Theorem parameter_names_prefixed :
  (forall mc : MultiCompartmentModel,
     mc_parameter_names mc =
       concat (imap (fun i m => map (fun p => occurrence_prefix (mc_models mc) i m +:+ p)
                                    (parameter_names m))
                    (mc_models mc))
       ++ (if bool_decide (1 < length (mc_models mc))%nat
           then map partial_volume_name (seq 0 (length (mc_models mc)))
           else []))%list /\
  (forall cls dist dcard target ms,
     parameter_names (Distributed cls dist dcard target ms) =
       concat (imap (fun i m => map (fun p => occurrence_prefix ms i m +:+ p)
                                    (filter (fun p => p <> target) (parameter_names m)))
                    ms)
       ++ map (fun q => (dist +:+ "_1_") +:+ q) (map fst dcard)
       ++ map partial_volume_name (seq 0 (length ms - 1)))%list.
Proof.
  split.
  - intros mc. unfold mc_parameter_names, mc_parameter_cardinality, component_card.
    rewrite map_app, concat_map, model_names_occurrence, zip_with_imap_self,
      map_imap.
    f_equal.
    + f_equal. apply imap_ext. intros i m _. by rewrite map_fst_prefix_card.
    + unfold mc_partial_volume_card. case_bool_decide; [|done].
      apply map_fst_partial_volume_card.
  - intros cls dist dcard target ms. unfold parameter_names.
    cbn [parameter_cardinality]. fold parameter_cardinality.
    unfold distributed_component_card.
    rewrite !map_app, concat_map, model_names_occurrence, zip_with_imap_map,
      map_imap, map_fst_prefix_card, map_fst_partial_volume_card.
    f_equal. f_equal. apply imap_ext. intros i m _.
    by rewrite map_fst_prefix_card, map_fst_filter_target.
Qed.

(* ================================================================== *)
(** ** What a distributed model keeps of its components *)

Lemma sublist_map {A B} (f : A -> B) (l1 l2 : list A) :
  sublist l1 l2 -> sublist (map f l1) (map f l2).
Proof. induction 1; simpl; constructor; auto. Qed.

Lemma filtered_component_names_sublist (target : string) (pres : list string)
    (ms : list model) :
  sublist
    (map fst (concat (zip_with
       (fun pre card => prefix_card pre (filter (fun pc => pc.1 <> target) card))
       pres (map parameter_cardinality ms))))
    (map fst (concat (zip_with
       (fun pre m => prefix_card pre (parameter_cardinality m)) pres ms))).
Proof.
  revert ms. induction pres as [|pre pres IH]; intros [|m ms]; simpl;
    try apply sublist_nil_l.
  rewrite !map_app. apply sublist_app; [|apply IH].
  rewrite !map_fst_prefix_card, map_fst_filter_target.
  apply sublist_map, sublist_filter.
Qed.

Lemma target_not_in_filtered (target : string) (pres : list string)
    (ms : list model) (pre : string) (m : model) :
  NoDup (map fst (concat (zip_with
           (fun pre m => prefix_card pre (parameter_cardinality m)) pres ms))) ->
  In (pre, m) (zip pres ms) ->
  In target (map fst (parameter_cardinality m)) ->
  ~ In (pre +:+ target)
      (map fst (concat (zip_with
         (fun pre card => prefix_card pre (filter (fun pc => pc.1 <> target) card))
         pres (map parameter_cardinality ms)))).
Proof.
  revert ms. induction pres as [|pre0 pres IH]; intros [|m0 ms] Hnd Hin Ht;
    simpl in *; try contradiction.
  rewrite map_app in Hnd |- *. rewrite in_app_iff.
  apply NoDup_app in Hnd as [_ [Hdisj Hnd]].
  apply in_map_iff in Ht as [[t c] [Htc Ht]]. simpl in Htc. subst t.
  intros [Hhead|Htail].
  - rewrite map_fst_prefix_card, map_fst_filter_target in Hhead.
    apply in_map_iff in Hhead as [p [Hp Hin']].
    destruct Hin as [[= -> ->]|Hin].
    + apply (inj (String.append pre)) in Hp. subst p.
      apply list_elem_of_In, list_elem_of_filter in Hin' as [Hne _]. done.
    + apply (Hdisj (pre +:+ target)).
      * rewrite map_fst_prefix_card. apply list_elem_of_In, in_map_iff.
        exists p. split; [done|].
        apply list_elem_of_In, list_elem_of_filter in Hin' as [_ Hin'].
        by apply list_elem_of_In.
      * apply list_elem_of_In. eapply component_name_in; eauto.
  - destruct Hin as [[= -> ->]|Hin].
    + apply (Hdisj (pre +:+ target)).
      * rewrite map_fst_prefix_card. apply list_elem_of_In, in_map_iff.
        exists target. split; [done|]. apply in_map_iff. by exists (target, c).
      * eapply elem_of_sublist; [apply list_elem_of_In, Htail|].
        apply filtered_component_names_sublist.
    + eapply IH; eauto. apply in_map_iff. by exists (target, c).
Qed.

(** A distributed model with distinct full names has distinct parameter
    names, carries every parameter of its distribution, and does not carry
    the target parameter of any component that has one. *)
Lemma distributed_names_drop_target (cls dist : string)
    (dcard : list (string * nat)) (target : string) (ms : list model) :
  NoDup (distributed_full_names (Distributed cls dist dcard target ms)) ->
  NoDup (parameter_names (Distributed cls dist dcard target ms)) /\
  (forall q, In q (map fst dcard) ->
     In ((dist +:+ "_1_") +:+ q)
        (parameter_names (Distributed cls dist dcard target ms))) /\
  (forall pre m, In (pre, m) (zip (model_names ms) ms) ->
     In target (parameter_names m) ->
     ~ In (pre +:+ target)
          (parameter_names (Distributed cls dist dcard target ms))).
Proof.
  unfold distributed_full_names, parameter_names. cbn [parameter_cardinality].
  fold parameter_cardinality. unfold distributed_component_card, component_card.
  rewrite !map_app. intros Hnd.
  split; [|split].
  - eapply sublist_NoDup; [exact Hnd|].
    apply sublist_app; [apply filtered_component_names_sublist|done].
  - intros q Hq. rewrite !in_app_iff. right. left.
    rewrite map_fst_prefix_card. apply in_map_iff. by exists q.
  - intros pre m Hin Ht. rewrite !in_app_iff.
    apply NoDup_app in Hnd as [HndU [Hdisj _]].
    assert (HU : In (pre +:+ target)
                   (map fst (concat (zip_with
                      (fun pre m => prefix_card pre (parameter_cardinality m))
                      (model_names ms) ms)))).
    { apply in_map_iff in Ht as [[t c] [Htc Ht]]. simpl in Htc. subst t.
      eapply component_name_in; eauto. }
    intros [Hf|Hrest].
    + eapply target_not_in_filtered; eauto.
    + apply (Hdisj (pre +:+ target)); apply list_elem_of_In;
        [exact HU|]. by apply in_app_iff.
Qed.

(* ================================================================== *)
(** ** C7: Gamma diameter distribution *)

(** C7: for every list of models wrapped in [DD1GammaDistributed] with a
    target parameter (distinct full names assumed, as a dict of parameters
    requires), the distributed model's parameter names contain the Gamma
    shape ['DD1Gamma_1_alpha'] and scale ['DD1Gamma_1_beta'] parameters and
    do not contain the target parameter of any component that has it. *)
Theorem gamma_distributed_names (ms : list model) (target : string) :
  NoDup (distributed_full_names (DD1GammaDistributed ms target)) ->
  In "DD1Gamma_1_alpha" (parameter_names (DD1GammaDistributed ms target)) /\
  In "DD1Gamma_1_beta" (parameter_names (DD1GammaDistributed ms target)) /\
  (forall pre m, In (pre, m) (zip (model_names ms) ms) ->
     In target (parameter_names m) ->
     ~ In (pre +:+ target) (parameter_names (DD1GammaDistributed ms target))).
Proof.
  intros Hnd. unfold DD1GammaDistributed in *.
  destruct (distributed_names_drop_target _ _ _ _ _ Hnd) as [_ [Hd Ht]].
  split; [|split].
  - apply (Hd "alpha"). simpl. auto.
  - apply (Hd "beta"). simpl. auto.
  - exact Ht.
Qed.

Lemma gamma_distributed_names_witness :
  NoDup (distributed_full_names gamma_bingham_bundle) /\
  In "DD1Gamma_1_alpha" (parameter_names gamma_bingham_bundle) /\
  In "DD1Gamma_1_beta" (parameter_names gamma_bingham_bundle) /\
  ~ In "SD2BinghamDistributed_1_C4CylinderGaussianPhaseApproximation_1_diameter"
       (parameter_names gamma_bingham_bundle).
Proof.
  assert (Hnd : NoDup (distributed_full_names gamma_bingham_bundle))
    by (apply (bool_decide_unpack _); vm_compute; reflexivity).
  destruct (gamma_distributed_names [bingham_bundle2]
              "C4CylinderGaussianPhaseApproximation_1_diameter" Hnd)
    as [Ha [Hb Ht]].
  split; [exact Hnd|]. split; [exact Ha|]. split; [exact Hb|].
  apply (Ht "SD2BinghamDistributed_1_" bingham_bundle2).
  - left. reflexivity.
  - apply list_elem_of_In, (bool_decide_unpack _). vm_compute. reflexivity.
Defined.

(* ================================================================== *)
(** ** C8: one orientation for a dispersed bundle *)

(** C8: for every Watson- or Bingham-dispersed model (distinct full names
    assumed), the orientation parameter of the distribution
    (['SD1Watson_1_mu'] or ['SD2Bingham_1_mu']) is a parameter name, the
    names are distinct (so it occurs once), and the orientation ['mu'] of
    every component that has one is not a parameter name: the components'
    orientations are tied to the distribution's. *)
Theorem dispersed_model_single_mu (ms : list model) (m : model) (mu : string) :
  (m = SD1WatsonDistributed ms /\ mu = "SD1Watson_1_mu") \/
  (m = SD2BinghamDistributed ms /\ mu = "SD2Bingham_1_mu") ->
  NoDup (distributed_full_names m) ->
  In mu (parameter_names m) /\ NoDup (parameter_names m) /\
  (forall pre c, In (pre, c) (zip (model_names ms) ms) ->
     In "mu" (parameter_names c) -> ~ In (pre +:+ "mu") (parameter_names m)).
Proof.
  intros [[-> ->]|[-> ->]] Hnd;
    destruct (distributed_names_drop_target _ _ _ _ _ Hnd) as [Hu [Hd Ht]];
    (split; [|split; [exact Hu|exact Ht]]);
    apply (Hd "mu"); simpl; auto.
Qed.

Lemma dispersed_model_single_mu_witness :
  NoDup (distributed_full_names watson_bundle) /\
  In "SD1Watson_1_mu" (parameter_names watson_bundle) /\
  NoDup (parameter_names watson_bundle) /\
  ~ In "C1Stick_1_mu" (parameter_names watson_bundle) /\
  ~ In "G2Zeppelin_1_mu" (parameter_names watson_bundle).
Proof.
  assert (Hnd : NoDup (distributed_full_names watson_bundle))
    by (apply (bool_decide_unpack _); vm_compute; reflexivity).
  destruct (dispersed_model_single_mu [C1Stick; G2Zeppelin] watson_bundle
              "SD1Watson_1_mu" (or_introl (conj eq_refl eq_refl)) Hnd)
    as [Hmu [Hu Ht]].
  split; [exact Hnd|]. split; [exact Hmu|]. split; [exact Hu|]. split.
  - apply (Ht "C1Stick_1_" C1Stick); [left; reflexivity|].
    apply list_elem_of_In, (bool_decide_unpack _). vm_compute. reflexivity.
  - apply (Ht "G2Zeppelin_1_" G2Zeppelin); [right; left; reflexivity|].
    apply list_elem_of_In, (bool_decide_unpack _). vm_compute. reflexivity.
Defined.

(* ================================================================== *)
(** ** C2: volume fractions *)








(* ================================================================== *)
(** ** C5: what the supplied notebook cells do *)

(** C5 (counterexample): the cells call a fourth method of the library's
    models, [parameter_vector_to_parameters] (for instance
    [stick.parameter_vector_to_parameters(res)]). *)
Lemma supplied_source_calls_parameter_vector_to_parameters :
  "parameter_vector_to_parameters" ∈ method_calls supplied_source /\
  "parameter_vector_to_parameters" ∉
    ["simulate_signal"; "fit"; "parameters_to_parameter_vector"].
Proof.
  split; apply (bool_decide_unpack _); vm_compute; reflexivity.
Qed.

(** C5 (amended): every statement of the supplied cells is an import, an
    assignment, an expression or a print, with no function or class
    definition; the methods called on objects are exactly
    [simulate_signal], [fit], [parameters_to_parameter_vector] and
    [parameter_vector_to_parameters]; the attributes read from objects are
    exactly [parameter_cardinality], [parameter_names] and
    [fitted_parameters]; every other call is a call of an imported
    constructor or helper function. *)
Theorem supplied_source_surface :
  Forall (fun s => is_simple_statement s = true) (concat (concat supplied_source)) /\
  (list_to_set (method_calls supplied_source) : gset string) =
    list_to_set ["simulate_signal"; "fit"; "parameters_to_parameter_vector";
                 "parameter_vector_to_parameters"] /\
  (list_to_set (object_attributes supplied_source) : gset string) =
    list_to_set ["parameter_cardinality"; "parameter_names"; "fitted_parameters"] /\
  (list_to_set (function_calls supplied_source) : gset string) =
    list_to_set ["C1Stick"; "G1Ball"; "G2Zeppelin"; "G3RestrictedZeppelin";
                 "C4CylinderGaussianPhaseApproximation"; "I1Stick"; "E3Ball";
                 "MultiCompartmentModel"; "PartialVolumeCombinedMicrostrukturModel";
                 "SD1WatsonDistributed"; "SD2BinghamDistributed";
                 "DD1GammaDistributed"; "wu_minn_hcp_acquisition_scheme";
                 "acquisition_scheme_from_bvalues"; "loadtxt"; "join"; "rand"].
Proof.
  split; [apply (bool_decide_unpack _); vm_compute; reflexivity|].
  split; [vm_compute; reflexivity|].
  split; vm_compute; reflexivity.
Qed.

(** ** Further properties of the embedded library and notebooks *)

Lemma list_ascii_of_string_app (s1 s2 : string) :
  String.list_ascii_of_string (s1 +:+ s2) =
    (String.list_ascii_of_string s1 ++ String.list_ascii_of_string s2)%list.
Proof. induction s1 as [|a s1 IH]; simpl; [done|]. by rewrite IH. Qed.

Lemma list_ascii_of_string_inj (s1 s2 : string) :
  String.list_ascii_of_string s1 = String.list_ascii_of_string s2 -> s1 = s2.
Proof.
  intros H. rewrite <-(String.string_of_list_ascii_of_string s1),
    <-(String.string_of_list_ascii_of_string s2), H. done.
Qed.

Lemma pretty_N_char_not_underscore (x : N) : pretty_N_char x <> "_"%char.
Proof. unfold pretty_N_char. repeat case_match; discriminate. Qed.

Lemma pretty_N_go_no_underscore (x : N) (s : string) :
  Forall (fun a => a <> "_"%char) (String.list_ascii_of_string s) ->
  Forall (fun a => a <> "_"%char) (String.list_ascii_of_string (pretty_N_go x s)).
Proof.
  revert s. induction (N.lt_wf_0 x) as [x _ IH]; intros s Hs.
  destruct (decide (x = 0)%N) as [->|Hx]; [by rewrite pretty_N_go_0|].
  rewrite pretty_N_go_step by lia. apply IH.
  - apply N.div_lt; lia.
  - simpl. constructor; [apply pretty_N_char_not_underscore|exact Hs].
Qed.

Lemma pretty_nat_no_underscore (k : nat) :
  Forall (fun a => a <> "_"%char) (String.list_ascii_of_string (pretty k)).
Proof.
  unfold pretty, pretty_nat, pretty, pretty_N.
  case_decide; [repeat constructor; discriminate|].
  apply pretty_N_go_no_underscore. constructor.
Qed.

Lemma underscore_split (d1 d2 r1 r2 : list ascii) :
  Forall (fun a => a <> "_"%char) d1 -> Forall (fun a => a <> "_"%char) d2 ->
  (d1 ++ "_"%char :: r1 = d2 ++ "_"%char :: r2)%list -> d1 = d2 /\ r1 = r2.
Proof.
  revert d2. induction d1 as [|a d1 IH]; intros [|b d2] H1 H2 Heq; simpl in Heq.
  - by injection Heq.
  - injection Heq as Hb _. subst b. inversion H2 as [|? ? Hne]. by destruct Hne.
  - injection Heq as Ha _. subst a. inversion H1 as [|? ? Hne]. by destruct Hne.
  - injection Heq as -> Heq. inversion H1; inversion H2; subst.
    destruct (IH d2) as [-> ->]; auto.
Qed.

Lemma model_prefix_inj (c1 c2 : string) (k1 k2 : nat) :
  c1 +:+ "_" +:+ pretty k1 +:+ "_" = c2 +:+ "_" +:+ pretty k2 +:+ "_" ->
  c1 = c2 /\ k1 = k2.
Proof.
  intros Heq. apply (f_equal String.list_ascii_of_string) in Heq.
  rewrite !list_ascii_of_string_app in Heq. simpl in Heq.
  apply (f_equal (@rev ascii)) in Heq.
  rewrite !rev_app_distr in Heq. simpl in Heq.
  rewrite !rev_app_distr in Heq. simpl in Heq.
  rewrite <-!app_assoc in Heq. simpl in Heq.
  injection Heq as Heq.
  destruct (underscore_split _ _ _ _
              (Forall_rev (pretty_nat_no_underscore k1))
              (Forall_rev (pretty_nat_no_underscore k2)) Heq) as [Hd Hc].
  split.
  - apply list_ascii_of_string_inj. rewrite <-(rev_involutive (String.list_ascii_of_string c1)), Hc.
    apply rev_involutive.
  - apply (inj pretty). apply list_ascii_of_string_inj.
    rewrite <-(rev_involutive (String.list_ascii_of_string (pretty k1))), Hd.
    apply rev_involutive.
Qed.

Lemma occurrence_lt (cs : list string) (i j : nat) (c : string) :
  (i < j)%nat -> cs !! j = Some c -> (occurrence cs i c < occurrence cs j c)%nat.
Proof.
  intros Hij Hj. unfold occurrence.
  rewrite (take_S_r _ _ _ Hj), filter_app, length_app.
  rewrite filter_cons_True by done. simpl.
  replace (take j cs) with (take (S i) cs ++ take (j - S i) (drop (S i) cs))%list
    by (rewrite take_take_drop; f_equal; lia).
  rewrite filter_app, length_app. lia.
Qed.

(** The prefixes given to the models of a MultiCompartmentModel are pairwise
    distinct. *)
Lemma model_names_distinct (ms : list model) : NoDup (model_names ms).
Proof.
  rewrite model_names_occurrence, NoDup_alt.
  assert (Hlt : forall i j mi mj, (i < j)%nat -> ms !! i = Some mi -> ms !! j = Some mj ->
            occurrence_prefix ms i mi <> occurrence_prefix ms j mj).
  { intros i j mi mj Hij Hi Hj Heq. unfold occurrence_prefix in Heq.
    apply model_prefix_inj in Heq as [Hc Hk].
    rewrite <-Hc in Hk.
    assert (Hj' : map class_name ms !! j = Some (class_name mi))
      by (rewrite list_lookup_fmap, Hj; simpl; by rewrite Hc).
    pose proof (occurrence_lt _ _ _ _ Hij Hj'). lia. }
  intros i j x Hi Hj.
  rewrite list_lookup_imap in Hi, Hj.
  destruct (ms !! i) as [mi|] eqn:Hmi; [|done].
  destruct (ms !! j) as [mj|] eqn:Hmj; [|done].
  simpl in Hi, Hj. injection Hi as Hi. injection Hj as Hj.
  destruct (Nat.lt_total i j) as [Hij|[Hij|Hij]]; [|done|].
  - exfalso. apply (Hlt i j mi mj); congruence.
  - exfalso. apply (Hlt j i mj mi); congruence.
Qed.

Lemma occurrence_distinct_classes (cs : list string) (i : nat) (c : string) :
  NoDup cs -> cs !! i = Some c -> occurrence cs i c = 1%nat.
Proof.
  intros Hnd Hi. unfold occurrence.
  assert (Hin : c ∈ filter (fun c' => c' = c) (take (S i) cs)).
  { apply list_elem_of_filter. split; [done|].
    rewrite (take_S_r _ _ _ Hi). apply elem_of_app. right. by left. }
  assert (Hnd' : NoDup (filter (fun c' => c' = c) (take (S i) cs))).
  { apply NoDup_filter. eapply sublist_NoDup; [done|apply sublist_take]. }
  destruct (filter (fun c' => c' = c) (take (S i) cs)) as [|x [|y l]] eqn:Hf.
  - by apply not_elem_of_nil in Hin.
  - done.
  - exfalso.
    assert (Hx : x = c).
    { assert (x ∈ filter (fun c' => c' = c) (take (S i) cs)) as Hx
        by (rewrite Hf; left).
      by apply list_elem_of_filter in Hx as [? _]. }
    assert (Hy : y = c).
    { assert (y ∈ filter (fun c' => c' = c) (take (S i) cs)) as Hy
        by (rewrite Hf; right; left).
      by apply list_elem_of_filter in Hy as [? _]. }
    subst. apply NoDup_cons in Hnd' as [Hn _]. apply Hn. left.
Qed.

Lemma model_names_first_occurrences (ms : list model) :
  NoDup (map class_name ms) ->
  model_names ms = map (fun m => class_name m +:+ "_1_") ms.
Proof.
  intros Hnd. rewrite model_names_occurrence.
  apply list_eq. intros i. rewrite list_lookup_imap, list_lookup_fmap.
  destruct (ms !! i) as [m|] eqn:Hm; [|done]. simpl. f_equal.
  unfold occurrence_prefix.
  rewrite (occurrence_distinct_classes _ i);
    [|done|by rewrite list_lookup_fmap, Hm].
  reflexivity.
Qed.

(** When the classes of the models are pairwise distinct, every prefix ends
    in [_1_]. *)
Lemma model_names_distinct_classes (ms : list model) :
  NoDup (map class_name ms) ->
  model_names ms = map (fun m => class_name m +:+ "_1_") ms.
Proof. apply model_names_first_occurrences. Qed.

Lemma length_model_names (ms : list model) : length (model_names ms) = length ms.
Proof. by rewrite model_names_occurrence, length_imap. Qed.

(** Adding models to the end of a MultiCompartmentModel keeps the prefixes of
    the models already there. *)
Lemma model_names_app (ms ms' : list model) :
  exists rest, model_names (ms ++ ms') = (model_names ms ++ rest)%list.
Proof.
  exists (drop (length ms) (model_names (ms ++ ms'))).
  rewrite <-(take_drop (length ms) (model_names (ms ++ ms'))) at 1. f_equal.
  rewrite !model_names_occurrence.
  apply list_eq. intros i.
  destruct (decide (i < length ms)%nat) as [Hi|Hi].
  - rewrite lookup_take by done. rewrite !list_lookup_imap.
    rewrite lookup_app_l by done.
    destruct (lookup_lt_is_Some_2 ms i Hi) as [m Hm]. rewrite Hm. simpl. f_equal.
    unfold occurrence_prefix, occurrence. rewrite map_app.
    rewrite decide_True by done. rewrite take_app_le by (rewrite length_map; lia). done.
  - rewrite lookup_take_ge by lia.
    rewrite list_lookup_imap, lookup_ge_None_2 by lia. done.
Qed.

Lemma map_snd_prefix_card (pre : string) (card : list (string * nat)) :
  map snd (prefix_card pre card) = map snd card.
Proof. unfold prefix_card. rewrite map_map. done. Qed.

Lemma sum_snd_app (l1 l2 : list (string * nat)) :
  sum_list (map snd (l1 ++ l2)) = (sum_list (map snd l1) + sum_list (map snd l2))%nat.
Proof. by rewrite map_app, sum_list_with_app. Qed.

Lemma sum_prefixed_card {X} (g : X -> list (string * nat)) (pres : list string)
    (xs : list X) :
  length pres = length xs ->
  sum_list (map snd (concat (zip_with (fun pre x => prefix_card pre (g x)) pres xs))) =
    sum_list (map (fun x => sum_list (map snd (g x))) xs).
Proof.
  revert pres. induction xs as [|x xs IH]; intros [|pre pres] Hlen;
    simpl in *; try done; try lia.
  rewrite sum_snd_app, map_snd_prefix_card, IH by lia. done.
Qed.

Lemma sum_partial_volume_card (n : nat) :
  sum_list (map snd (partial_volume_card n)) = n.
Proof.
  unfold partial_volume_card. rewrite map_map.
  rewrite <-(length_seq n 0) at 2.
  induction (seq 0 n) as [|i l IH]; simpl in *; [done|]. rewrite IH. done.
Qed.

(** The length of a MultiCompartmentModel's parameter vector is the sum of
    its components' lengths, plus one partial volume per component when
    there is more than one component. *)
Theorem mc_total_cardinality (mc : MultiCompartmentModel) :
  total_cardinality mc =
    (sum_list (map (fun m : model => total_cardinality m) (mc_models mc)) +
     (if bool_decide (1 < length (mc_models mc))%nat
      then length (mc_models mc) else 0))%nat.
Proof.
  unfold total_cardinality, parameter_cardinality_of, mc_model_properties,
    model_properties, mc_parameter_cardinality, component_card.
  rewrite sum_snd_app.
  rewrite (sum_prefixed_card parameter_cardinality) by apply length_model_names.
  f_equal. unfold mc_partial_volume_card. case_bool_decide; [|done].
  apply sum_partial_volume_card.
Qed.

(** The length of a distributed model's parameter vector: the parameters of
    its models except the distributed target, the distribution's own
    parameters, and one partial volume less than the number of models. *)
Theorem distributed_total_cardinality (cls dist : string)
    (dcard : list (string * nat)) (target : string) (ms : list model) :
  total_cardinality (Distributed cls dist dcard target ms) =
    (sum_list (map (fun m => sum_list (map snd
        (filter (fun pc => pc.1 <> target) (parameter_cardinality m)))) ms)
     + sum_list (map snd dcard) + (length ms - 1))%nat.
Proof.
  unfold total_cardinality, parameter_cardinality_of, model_properties.
  cbn [parameter_cardinality].
  rewrite !sum_snd_app, map_snd_prefix_card, sum_partial_volume_card.
  unfold distributed_component_card.
  rewrite (sum_prefixed_card (filter (fun pc => pc.1 <> target)))
    by (rewrite length_model_names, length_map; done).
  rewrite map_map. lia.
Qed.

Lemma card_to_parameter_vector_length (card : list (string * nat))
    (A : gmap string pvalue) (vec : list Q) :
  card_valid card A = true -> card_to_parameter_vector card A = Some vec ->
  length vec = sum_list (map snd card).
Proof.
  revert vec. induction card as [|[p c] card IH]; simpl; intros vec Hv Hvec.
  - by injection Hvec as <-.
  - apply andb_prop in Hv as [Hp Hv].
    destruct (A !! p) as [v|]; [|discriminate]. simpl in Hvec.
    destruct (card_to_parameter_vector card A) as [rest|] eqn:Hr; [|discriminate].
    simpl in Hvec. injection Hvec as <-. apply bool_decide_eq_true in Hp.
    rewrite length_app, Hp, (IH rest) by done. done.
Qed.

(** A valid assignment is turned into a vector of the model's total
    cardinality. *)
Theorem parameter_vector_length {M} `{ModelProperties M} (m : M)
    (parameters : gmap string pvalue) (vec : list Q) :
  valid_assignment m parameters = true ->
  parameters_to_parameter_vector m parameters = Some vec ->
  length vec = total_cardinality m.
Proof. apply card_to_parameter_vector_length. Qed.




(** Witness: Ball and Stick have distinct classes. *)
Lemma model_names_distinct_classes_witness :
  NoDup (map class_name [G1Ball; C1Stick]) /\
  model_names [G1Ball; C1Stick] = map (fun m => class_name m +:+ "_1_") [G1Ball; C1Stick].
Proof.
  assert (Hnd : NoDup (map class_name [G1Ball; C1Stick]))
    by (apply (bool_decide_unpack _); vm_compute; reflexivity).
  split; [exact Hnd|]. exact (model_names_distinct_classes _ Hnd).
Defined.

(** Witness: the ball-and-stick assignment of the combining notebook. *)
Lemma parameter_vector_length_witness :
  valid_assignment ball_and_stick ball_and_stick_parameters = true /\
  parameters_to_parameter_vector ball_and_stick ball_and_stick_parameters =
    Some ball_and_stick_vector /\
  length ball_and_stick_vector = total_cardinality ball_and_stick.
Proof.
  assert (Hv : valid_assignment ball_and_stick ball_and_stick_parameters = true)
    by (vm_compute; reflexivity).
  assert (Hp : parameters_to_parameter_vector ball_and_stick ball_and_stick_parameters =
                 Some ball_and_stick_vector) by (vm_compute; reflexivity).
  split; [exact Hv|]. split; [exact Hp|].
  exact (parameter_vector_length ball_and_stick _ _ Hv Hp).
Defined.


(** Case analysis over the call sites of the supplied notebooks. *)
Ltac notebook_sites Hnb Hc :=
  repeat (apply elem_of_cons in Hnb as [->|Hnb]);
  [..|by apply not_elem_of_nil in Hnb];
  apply list_elem_of_In in Hc; vm_compute in Hc;
  repeat destruct Hc as [<-|Hc]; try contradiction.

(** A call found by [first_call] is in the trace. *)
Ltac first_call_found :=
  unfold first_call;
  match goal with
  | |- context [list_find ?P ?l] =>
      let E := fresh "E" in
      destruct (list_find P l) as [[i x]|] eqn:E;
      [apply list_find_Some in E as (Hi & _ & _); simpl;
       exact (list_elem_of_lookup_2 _ _ _ Hi)
      |vm_compute in E; discriminate]
  end.

(** Every name a notebook cell reads has been bound by an earlier cell: each
    notebook of the supplied source runs to its end in the interpreter. *)
Theorem notebooks_bind_before_use :
  Forall (fun nb => is_Some (run_notebook nb)) supplied_source.
Proof. apply (bool_decide_unpack _); vm_compute; reflexivity. Qed.

(** Every [parameters_to_parameter_vector] call of the notebooks is made on a
    model, with keyword arguments only, naming each parameter of that model
    exactly once and giving each a value of its cardinality. *)
Theorem notebook_parameter_vector_calls (nb : notebook) (c : call_site) :
  nb ∈ supplied_source -> c ∈ notebook_trace nb ->
  site_method c = "parameters_to_parameter_vector" ->
  exists lm, site_receiver c = VModel lm /\ site_args c = [] /\
    map fst (site_kwargs c) ≡ₚ map fst (libmodel_card lm) /\
    Forall (fun kv => (kv.1, value_size kv.2) ∈
                        map (fun pc => (pc.1, Some pc.2)) (libmodel_card lm))
           (site_kwargs c).
Proof.
  intros Hnb Hc Hm. notebook_sites Hnb Hc; try discriminate;
    (eexists; split; [reflexivity|]; split; [reflexivity|]; split;
     apply (bool_decide_unpack _); vm_compute; reflexivity).
Qed.


(** Witness: the first call of the simple notebook. *)
Lemma notebook_parameter_vector_calls_witness :
  exists c, simple_notebook ∈ supplied_source /\ c ∈ notebook_trace simple_notebook /\
    site_method c = "parameters_to_parameter_vector" /\
    exists lm, site_receiver c = VModel lm /\ site_args c = [] /\
      map fst (site_kwargs c) ≡ₚ map fst (libmodel_card lm) /\
      Forall (fun kv => (kv.1, value_size kv.2) ∈
                          map (fun pc => (pc.1, Some pc.2)) (libmodel_card lm))
             (site_kwargs c).
Proof.
  exists (first_call simple_notebook "parameters_to_parameter_vector").
  assert (Hnb : simple_notebook ∈ supplied_source)
    by (apply list_elem_of_In; right; right; right; left; reflexivity).
  assert (Hc : first_call simple_notebook "parameters_to_parameter_vector"
                 ∈ notebook_trace simple_notebook) by first_call_found.
  assert (Hm : site_method (first_call simple_notebook "parameters_to_parameter_vector")
                 = "parameters_to_parameter_vector") by (vm_compute; reflexivity).
  split; [exact Hnb|]. split; [exact Hc|]. split; [exact Hm|].
  exact (notebook_parameter_vector_calls simple_notebook _ Hnb Hc Hm).
Defined.

(** In the notebooks every [simulate_signal], [parameter_vector_to_parameters]
    and [fit] call is made on a model with positional arguments only, and
    every vector passed to [simulate_signal], [parameter_vector_to_parameters]
    or a microstruktur [fit] is a parameter vector of that same model; a
    [dmipy] [fit] is given the acquisition scheme and the signal. *)
Theorem notebook_vector_calls (nb : notebook) (c : call_site) :
  nb ∈ supplied_source -> c ∈ notebook_trace nb ->
  site_method c ∈ ["simulate_signal"; "parameter_vector_to_parameters"; "fit"] ->
  exists lm, site_receiver c = VModel lm /\ site_kwargs c = [] /\
    (site_method c = "simulate_signal" ->
       site_args c = [VAcquisition; VVector (libmodel_card lm)]) /\
    (site_method c = "parameter_vector_to_parameters" ->
       site_args c = [VVector (libmodel_card lm)]) /\
    (site_method c = "fit" ->
       site_args c = match lm with
                     | MicrostrukturModel _ _ =>
                         [VSignal; VAcquisition; VVector (libmodel_card lm)]
                     | _ => [VAcquisition; VSignal]
                     end).
Proof.
  intros Hnb Hc Hm. notebook_sites Hnb Hc;
    try (exfalso; cbn [site_method] in Hm;
         repeat (apply elem_of_cons in Hm as [Hm|Hm]; [discriminate|]);
         by apply not_elem_of_nil in Hm);
    (eexists; split; [reflexivity|]; split; [reflexivity|];
     split; [|split]; intros Hm'; vm_compute in Hm' |- *; (discriminate || reflexivity)).
Qed.

(** Witness: the [simulate_signal] call of the combining notebook. *)
Lemma notebook_vector_calls_witness :
  exists c, combining_notebook ∈ supplied_source /\ c ∈ notebook_trace combining_notebook /\
    site_method c ∈ ["simulate_signal"; "parameter_vector_to_parameters"; "fit"] /\
    exists lm, site_receiver c = VModel lm /\
      site_args c = [VAcquisition; VVector (libmodel_card lm)].
Proof.
  exists (first_call combining_notebook "simulate_signal").
  assert (Hnb : combining_notebook ∈ supplied_source)
    by (apply list_elem_of_In; left; reflexivity).
  assert (Hc : first_call combining_notebook "simulate_signal"
                 ∈ notebook_trace combining_notebook) by first_call_found.
  assert (Hs : site_method (first_call combining_notebook "simulate_signal")
                 = "simulate_signal") by (vm_compute; reflexivity).
  assert (Hm : site_method (first_call combining_notebook "simulate_signal")
                 ∈ ["simulate_signal"; "parameter_vector_to_parameters"; "fit"])
    by (rewrite Hs; left).
  split; [exact Hnb|]. split; [exact Hc|]. split; [exact Hm|].
  destruct (notebook_vector_calls combining_notebook _ Hnb Hc Hm)
    as (lm & Hr & _ & Hsim & _).
  exists lm. split; [exact Hr|]. exact (Hsim Hs).
Defined.
